(** * Reactive telemetry / video stores of the ground station

    A shallow embedding of the store layer of [src/bindings/middleware.ts]
    ([TelemetryStore], [VideoStore]) and of the rolling window kept by
    [App.tsx], together with the properties the specification states about
    them.

    Modelling conventions.
    - A JavaScript function value is identified by its reference: a
      subscriber callback is a [Callback] identifier, and calling it is
      recorded in the world's [trace] together with its argument.  Callbacks
      are observers: they do not call back into the store.
    - The Tauri event channel is the list of live listener ids; [listen]
      allocates a fresh id and the [UnlistenFn] it returns removes exactly
      that id (removing an id twice changes nothing).
    - What the backend answers at an [await] is an argument ([Normal v] when
      the promise resolves, [Throw e] when it rejects).  [start] runs the
      method to completion, as a caller that awaits it sees it; [start_call],
      [start_seed] and [start_attach] are the same method cut at its two
      awaits, and [Async] runs programs in which other calls are made while
      a [start()] is suspended.
    - [maxPoints] is a JavaScript number; the model covers the integer
      ones. *)

From Stdlib Require Import ZArith Lia.
From stdpp Require Import base list strings gmap.

(** ** The runtime: completions, effects, and the state monad *)

Definition Callback := nat.
Definition UnlistenFn := nat.

Inductive JsError := Rejected (reason : string).

Inductive Completion (A : Type) :=
| Normal (a : A)
| Throw (e : JsError).
Arguments Normal {A} a.
Arguments Throw {A} e.

Inductive Effect (V : Type) :=
| Invoked (cmd key : string)
| Listened (channel : string) (h : UnlistenFn)
| Unlistened (h : UnlistenFn)
| Called (cb : Callback) (v : V).
Arguments Invoked {V} cmd key.
Arguments Listened {V} channel h.
Arguments Unlistened {V} h.
Arguments Called {V} cb v.

Record World (S V : Type) := mkWorld {
  this : S;
  listeners : list UnlistenFn;
  next_id : UnlistenFn;
  trace : list (Effect V)
}.
Arguments mkWorld {S V} this listeners next_id trace.
Arguments this {S V} w.
Arguments listeners {S V} w.
Arguments next_id {S V} w.
Arguments trace {S V} w.

Definition M (S V A : Type) : Type := World S V -> Completion A * World S V.

Section Runtime.
Context {S V : Type}.

Definition ret {A} (a : A) : M S V A := fun w => (Normal a, w).

Definition bind {A B} (c : M S V A) (k : A -> M S V B) : M S V B :=
  fun w =>
    match c w with
    | (Normal a, w') => k a w'
    | (Throw e, w') => (Throw e, w')
    end.

Definition get : M S V S := fun w => (Normal (this w), w).

Definition modify (f : S -> S) : M S V unit :=
  fun w => (Normal tt, mkWorld (f (this w)) (listeners w) (next_id w) (trace w)).

Definition effect (e : Effect V) : M S V unit :=
  fun w => (Normal tt, mkWorld (this w) (listeners w) (next_id w) (trace w ++ [e])).

(** [await p]: the promise [p] has settled with the given completion. *)
Definition await {A} (p : Completion A) : M S V A := fun w => (p, w).

(** [invoke(cmd, {key, ...})]: the request is issued, then awaited. *)
Definition invoke {A} (cmd key : string) (reply : Completion A) : M S V A :=
  bind (effect (Invoked cmd key)) (fun _ => await reply).

(** [listen(channel, handler)]: when the registration resolves, a listener
    with a fresh id is live and its unlisten function is returned. *)
Definition listen (channel : string) (attach : Completion unit) : M S V UnlistenFn :=
  fun w =>
    match attach with
    | Normal _ =>
        (Normal (next_id w),
         mkWorld (this w) (listeners w ++ [next_id w]) (Datatypes.S (next_id w))
                 (trace w ++ [Listened channel (next_id w)]))
    | Throw e => (Throw e, w)
    end.

(** Calling an unlisten function removes the listener it was returned for. *)
Definition call_unlisten (h : UnlistenFn) : M S V unit :=
  fun w =>
    (Normal tt,
     mkWorld (this w) (filter (fun h' => h' ≠ h) (listeners w)) (next_id w)
             (trace w ++ [Unlistened h])).

Definition call (cb : Callback) (v : V) : M S V unit := effect (Called cb v).

Fixpoint forEach {A} (l : list A) (f : A -> M S V unit) : M S V unit :=
  match l with
  | [] => ret tt
  | x :: l' => bind (f x) (fun _ => forEach l' f)
  end.

End Runtime.

Notation "'do' x <- c ; k" := (bind c (fun x => k))
  (at level 10, x name, c at level 100, k at level 200).
Notation "'exec' c ; k" := (bind c (fun _ => k))
  (at level 10, c at level 100, k at level 200).

(** [Array.prototype.slice(start)] for an integer [start]. *)
Definition slice {A} (start : Z) (l : list A) : list A :=
  let len := Z.of_nat (length l) in
  let k := if (start <? 0)%Z then Z.max (len + start) 0 else Z.min start len in
  drop (Z.to_nat k) l.

(** The unlisten calls recorded in a trace, oldest first. *)
Fixpoint unlistened {V} (t : list (Effect V)) : list UnlistenFn :=
  match t with
  | [] => []
  | Unlistened h :: t' => h :: unlistened t'
  | _ :: t' => unlistened t'
  end.

(** The subscriber calls recorded in a trace, oldest first. *)
Fixpoint calls {V} (t : list (Effect V)) : list (Callback * V) :=
  match t with
  | [] => []
  | Called cb v :: t' => (cb, v) :: calls t'
  | _ :: t' => calls t'
  end.

(** ** TelemetryStore *)
Module Telemetry.

Inductive FieldValue :=
| FNumber (z : Z)
| FString (s : string)
| FBoolean (b : bool).

Record TelemetryData := mkTelemetryData {
  timestamp : Z;
  fields : gmap string FieldValue
}.

Record TelemetryStore := mkStore {
  key : string;
  data : list TelemetryData;
  currentData : option TelemetryData;
  subscribers : list Callback;
  maxPoints : Z;
  unlisten : option UnlistenFn
}.

Definition set_data (d : list TelemetryData) (s : TelemetryStore) :=
  mkStore (key s) d (currentData s) (subscribers s) (maxPoints s) (unlisten s).
Definition set_currentData (c : option TelemetryData) (s : TelemetryStore) :=
  mkStore (key s) (data s) c (subscribers s) (maxPoints s) (unlisten s).
Definition set_subscribers (l : list Callback) (s : TelemetryStore) :=
  mkStore (key s) (data s) (currentData s) l (maxPoints s) (unlisten s).
Definition set_unlisten (u : option UnlistenFn) (s : TelemetryStore) :=
  mkStore (key s) (data s) (currentData s) (subscribers s) (maxPoints s) u.

Abbreviation W := (World TelemetryStore (list TelemetryData)).
Abbreviation Mt := (M TelemetryStore (list TelemetryData)).

(** [new TelemetryStore(key, maxPoints = 100)]. *)
Definition constructor (k : string) (n : option Z) : Completion TelemetryStore :=
  Normal (mkStore k [] None [] (default 100%Z n) None).

(** The world right after a store object has been created. *)
Definition fresh (s : TelemetryStore) : W := mkWorld s [] 0 [].

Definition getTelemetry (k : string) (count : Z)
    (reply : Completion (list TelemetryData)) : Mt (list TelemetryData) :=
  invoke "get_telemetry" k reply.

Definition notify : Mt unit :=
  do s <- get;
  forEach (subscribers s) (fun callback => do s' <- get; call callback (data s')).

(** The closure [start] hands to [onTelemetryUpdate]. *)
Definition on_update (d : TelemetryData) : Mt unit :=
  exec modify (set_currentData (Some d));
  exec modify (fun s => set_data (slice (- maxPoints s) (data s ++ [d])) s);
  notify.

Definition onTelemetryUpdate (attach : Completion unit) : Mt UnlistenFn :=
  listen "telemetry-update" attach.

Definition start (snapshot : Completion (list TelemetryData))
    (attach : Completion unit) : Mt unit :=
  do s <- get;
  do existing <- getTelemetry (key s) (maxPoints s) snapshot;
  exec modify (set_data existing);
  exec (if bool_decide (0 < length existing)
      then modify (set_currentData (existing !! (length existing - 1)))
      else ret tt);
  exec notify;
  do h <- onTelemetryUpdate attach;
  modify (set_unlisten (Some h)).

Definition stop : Mt unit :=
  do s <- get;
  match unlisten s with
  | Some h => exec call_unlisten h; modify (set_unlisten None)
  | None => ret tt
  end.

(** The disposer closure [subscribe] returns. *)
Definition disposer (callback : Callback) : Mt unit :=
  modify (fun s => set_subscribers (filter (fun cb => cb ≠ callback) (subscribers s)) s).

Definition subscribe (callback : Callback) : Mt (Mt unit) :=
  exec modify (fun s => set_subscribers (subscribers s ++ [callback]) s);
  do s <- get;
  exec call callback (data s);
  ret (disposer callback).

Definition getCurrentData : Mt (option TelemetryData) :=
  do s <- get; ret (currentData s).

Definition getAllData : Mt (list TelemetryData) :=
  do s <- get; ret (data s).

Definition refresh (snapshot : Completion (list TelemetryData)) : Mt unit :=
  do s <- get;
  do d <- getTelemetry (key s) (maxPoints s) snapshot;
  exec modify (set_data d);
  do s <- get;
  exec (if bool_decide (0 < length (data s))
      then modify (set_currentData (data s !! (length (data s) - 1)))
      else ret tt);
  notify.

(** A [telemetry-update] event reaches every live listener of the store. *)
Definition emit (d : TelemetryData) : Mt unit :=
  fun w => forEach (listeners w) (fun _ => on_update d) w.

(** The state [start] and [refresh] leave once the snapshot has arrived. *)
Definition seeded (existing : list TelemetryData) (s : TelemetryStore) : TelemetryStore :=
  mkStore (key s) existing
    (if bool_decide (0 < length existing)
     then existing !! (length existing - 1) else currentData s)
    (subscribers s) (maxPoints s) (unlisten s).

(** Client programs: what the UI layer and the channel do to one store. *)
Inductive Op :=
| Start (snapshot : Completion (list TelemetryData)) (attach : Completion unit)
| Stop
| Subscribe (callback : Callback)
| Dispose (callback : Callback)
| Refresh (snapshot : Completion (list TelemetryData))
| Emit (d : TelemetryData).

Definition perform (op : Op) : Mt unit :=
  match op with
  | Start snapshot attach => start snapshot attach
  | Stop => stop
  | Subscribe callback => do _ <- subscribe callback; ret tt
  | Dispose callback => disposer callback
  | Refresh snapshot => refresh snapshot
  | Emit d => emit d
  end.

(** A caller that catches whatever an operation throws and carries on. *)
Definition step (op : Op) (w : W) : W := snd (perform op w).

Fixpoint run (ops : list Op) (w : W) : W :=
  match ops with
  | [] => w
  | op :: ops' => run ops' (step op w)
  end.

(** [start] is only ever called while the store holds no unlisten function. *)
Fixpoint disciplined (ops : list Op) (w : W) : bool :=
  match ops with
  | [] => true
  | op :: ops' =>
      match op with
      | Start _ _ => bool_decide (unlisten (this w) = None)
      | _ => true
      end && disciplined ops' (step op w)
  end.

(** No record has reached the store: every snapshot was empty or failed and
    no event was emitted. *)
Definition quiet (op : Op) : bool :=
  match op with
  | Start (Normal (_ :: _)) _ | Refresh (Normal (_ :: _)) | Emit _ => false
  | _ => true
  end.

(** *** [start()] between its awaits

    [start()] suspends twice.  The three definitions below are what it runs
    before the first [await], between the two, and after the second;
    [Async] keeps, beside the world, the [start()] calls still suspended, so
    that other calls can run in between. *)

(** Up to the first [await]: the snapshot request is issued. *)
Definition start_call : Mt unit :=
  do s <- get; effect (Invoked "get_telemetry" (key s)).

(** From the first [await] to the second: the buffer is seeded and the
    subscribers are notified; the listener registration is then requested. *)
Definition start_seed (existing : list TelemetryData) : Mt unit :=
  exec modify (set_data existing);
  exec (if bool_decide (0 < length existing)
        then modify (set_currentData (existing !! (length existing - 1)))
        else ret tt);
  notify.

(** After the second [await]: the listener is live and its unlisten
    function is stored, or the rejection is thrown. *)
Definition start_attach (attach : Completion unit) : Mt unit :=
  do h <- onTelemetryUpdate attach;
  modify (set_unlisten (Some h)).

Inductive Stage := AwaitSnapshot | AwaitListen.

Record Async := mkAsync {
  world : W;
  pending : list Stage
}.

Definition afresh (s : TelemetryStore) : Async := mkAsync (fresh s) [].

(** What can happen next: [start()] is called and runs to its first
    [await]; the snapshot request of the [i]-th suspended [start()] settles;
    its listener registration settles; or one of the operations of [Op]
    runs without anything in between. *)
Inductive AOp :=
| CallStart
| SnapshotSettles (i : nat) (snapshot : Completion (list TelemetryData))
| ListenSettles (i : nat) (attach : Completion unit)
| Sync (op : Op).

Definition astep (op : AOp) (a : Async) : Async :=
  match op with
  | CallStart => mkAsync (snd (start_call (world a))) (pending a ++ [AwaitSnapshot])
  | SnapshotSettles i snapshot =>
      match pending a !! i, snapshot with
      | Some AwaitSnapshot, Normal existing =>
          mkAsync (snd (start_seed existing (world a))) (<[i := AwaitListen]> (pending a))
      | Some AwaitSnapshot, Throw _ => mkAsync (world a) (delete i (pending a))
      | _, _ => a
      end
  | ListenSettles i attach =>
      match pending a !! i with
      | Some AwaitListen =>
          mkAsync (snd (start_attach attach (world a))) (delete i (pending a))
      | _ => a
      end
  | Sync op => mkAsync (step op (world a)) (pending a)
  end.

Fixpoint arun (ops : list AOp) (a : Async) : Async :=
  match ops with
  | [] => a
  | op :: ops' => arun ops' (astep op a)
  end.

(** No [start()] is suspended. *)
Definition idle (a : Async) : bool :=
  match pending a with
  | [] => true
  | _ => false
  end.

(** Every [start()] is awaited: [start()] is only called while no
    [start()] is suspended and no unlisten function is held, and [stop()]
    only while no [start()] is suspended. *)
Fixpoint awaited (ops : list AOp) (a : Async) : bool :=
  match ops with
  | [] => true
  | op :: ops' =>
      match op with
      | CallStart | Sync (Start _ _) =>
          idle a && bool_decide (unlisten (this (world a)) = None)
      | Sync Stop => idle a
      | _ => true
      end && awaited ops' (astep op a)
  end.

End Telemetry.

(** ** VideoStore *)
Module Video.

Record VideoFrameForFrontend := mkFrame {
  timestamp : Z;
  data_base64 : string;
  width : Z;
  height : Z;
  format : string
}.

(** A [video-frame-update] event.  The backend emits it for the stream
    [stream_key]; the payload the listener receives is the frame alone. *)
Record VideoEvent := mkEvent {
  stream_key : string;
  payload : VideoFrameForFrontend
}.

Record VideoStore := mkStore {
  key : string;
  currentFrame : option VideoFrameForFrontend;
  subscribers : list Callback;
  unlisten : option UnlistenFn
}.

Definition set_currentFrame (f : option VideoFrameForFrontend) (s : VideoStore) :=
  mkStore (key s) f (subscribers s) (unlisten s).
Definition set_subscribers (l : list Callback) (s : VideoStore) :=
  mkStore (key s) (currentFrame s) l (unlisten s).
Definition set_unlisten (u : option UnlistenFn) (s : VideoStore) :=
  mkStore (key s) (currentFrame s) (subscribers s) u.

Abbreviation W := (World VideoStore (option VideoFrameForFrontend)).
Abbreviation Mv := (M VideoStore (option VideoFrameForFrontend)).

(** [new VideoStore(key)]. *)
Definition constructor (k : string) : Completion VideoStore :=
  Normal (mkStore k None [] None).

Definition fresh (s : VideoStore) : W := mkWorld s [] 0 [].

Definition getLatestVideoFrame (k : string)
    (reply : Completion (option VideoFrameForFrontend)) :
    Mv (option VideoFrameForFrontend) :=
  invoke "get_latest_video_frame" k reply.

Definition notify : Mv unit :=
  do s <- get;
  forEach (subscribers s) (fun callback => do s' <- get; call callback (currentFrame s')).

(** The closure [start] hands to [onVideoFrameUpdate]. *)
Definition on_frame (frame : VideoFrameForFrontend) : Mv unit :=
  exec modify (set_currentFrame (Some frame));
  notify.

Definition onVideoFrameUpdate (attach : Completion unit) : Mv UnlistenFn :=
  listen "video-frame-update" attach.

Definition start (latest : Completion (option VideoFrameForFrontend))
    (attach : Completion unit) : Mv unit :=
  do s <- get;
  do f <- getLatestVideoFrame (key s) latest;
  exec modify (set_currentFrame f);
  exec notify;
  do h <- onVideoFrameUpdate attach;
  modify (set_unlisten (Some h)).

Definition stop : Mv unit :=
  do s <- get;
  match unlisten s with
  | Some h => exec call_unlisten h; modify (set_unlisten None)
  | None => ret tt
  end.

(** The disposer closure [subscribe] returns. *)
Definition disposer (callback : Callback) : Mv unit :=
  modify (fun s => set_subscribers (filter (fun cb => cb ≠ callback) (subscribers s)) s).

Definition subscribe (callback : Callback) : Mv (Mv unit) :=
  exec modify (fun s => set_subscribers (subscribers s ++ [callback]) s);
  do s <- get;
  exec call callback (currentFrame s);
  ret (disposer callback).

Definition getCurrentFrame : Mv (option VideoFrameForFrontend) :=
  do s <- get; ret (currentFrame s).

Definition refresh (latest : Completion (option VideoFrameForFrontend)) : Mv unit :=
  do s <- get;
  do f <- getLatestVideoFrame (key s) latest;
  exec modify (set_currentFrame f);
  notify.

(** [MiddlewareAPI.onVideoFrameUpdate] passes [event.payload] to the
    callback of every live listener. *)
Definition emit (ev : VideoEvent) : Mv unit :=
  fun w => forEach (listeners w) (fun _ => on_frame (payload ev)) w.

(** Client programs: what the UI layer and the channel do to one store. *)
Inductive Op :=
| Start (latest : Completion (option VideoFrameForFrontend)) (attach : Completion unit)
| Stop
| Subscribe (callback : Callback)
| Dispose (callback : Callback)
| Refresh (latest : Completion (option VideoFrameForFrontend))
| Emit (ev : VideoEvent).

Definition perform (op : Op) : Mv unit :=
  match op with
  | Start latest attach => start latest attach
  | Stop => stop
  | Subscribe callback => do _ <- subscribe callback; ret tt
  | Dispose callback => disposer callback
  | Refresh latest => refresh latest
  | Emit ev => emit ev
  end.

(** A caller that catches whatever an operation throws and carries on. *)
Definition step (op : Op) (w : W) : W := snd (perform op w).

Fixpoint run (ops : list Op) (w : W) : W :=
  match ops with
  | [] => w
  | op :: ops' => run ops' (step op w)
  end.

(** [start] is only ever called while the store holds no unlisten function. *)
Fixpoint disciplined (ops : list Op) (w : W) : bool :=
  match ops with
  | [] => true
  | op :: ops' =>
      match op with
      | Start _ _ => bool_decide (unlisten (this w) = None)
      | _ => true
      end && disciplined ops' (step op w)
  end.

(** *** [start()] between its awaits *)

(** Up to the first [await]: the request for the latest frame is issued. *)
Definition start_call : Mv unit :=
  do s <- get; effect (Invoked "get_latest_video_frame" (key s)).

(** From the first [await] to the second: the frame is stored and the
    subscribers are notified; the listener registration is then requested. *)
Definition start_seed (f : option VideoFrameForFrontend) : Mv unit :=
  exec modify (set_currentFrame f);
  notify.

(** After the second [await]: the listener is live and its unlisten
    function is stored, or the rejection is thrown. *)
Definition start_attach (attach : Completion unit) : Mv unit :=
  do h <- onVideoFrameUpdate attach;
  modify (set_unlisten (Some h)).

Inductive Stage := AwaitLatest | AwaitListen.

Record Async := mkAsync {
  world : W;
  pending : list Stage
}.

Definition afresh (s : VideoStore) : Async := mkAsync (fresh s) [].

Inductive AOp :=
| CallStart
| LatestSettles (i : nat) (latest : Completion (option VideoFrameForFrontend))
| ListenSettles (i : nat) (attach : Completion unit)
| Sync (op : Op).

Definition astep (op : AOp) (a : Async) : Async :=
  match op with
  | CallStart => mkAsync (snd (start_call (world a))) (pending a ++ [AwaitLatest])
  | LatestSettles i latest =>
      match pending a !! i, latest with
      | Some AwaitLatest, Normal f =>
          mkAsync (snd (start_seed f (world a))) (<[i := AwaitListen]> (pending a))
      | Some AwaitLatest, Throw _ => mkAsync (world a) (delete i (pending a))
      | _, _ => a
      end
  | ListenSettles i attach =>
      match pending a !! i with
      | Some AwaitListen =>
          mkAsync (snd (start_attach attach (world a))) (delete i (pending a))
      | _ => a
      end
  | Sync op => mkAsync (step op (world a)) (pending a)
  end.

Fixpoint arun (ops : list AOp) (a : Async) : Async :=
  match ops with
  | [] => a
  | op :: ops' => arun ops' (astep op a)
  end.

Definition idle (a : Async) : bool :=
  match pending a with
  | [] => true
  | _ => false
  end.

(** Every [start()] is awaited, as for the telemetry store. *)
Fixpoint awaited (ops : list AOp) (a : Async) : bool :=
  match ops with
  | [] => true
  | op :: ops' =>
      match op with
      | CallStart | Sync (Start _ _) =>
          idle a && bool_decide (unlisten (this (world a)) = None)
      | Sync Stop => idle a
      | _ => true
      end && awaited ops' (astep op a)
  end.

End Video.

(** ** The rolling window of [App.tsx] *)
Module App.

Record GraphData := mkPoint { x : Z; y : Z }.

(** The updater passed to [setData]: append, then [shift] once when the
    array has grown past [MAX_DATA_SIZE]. *)
Definition setData_updater (MAX_DATA_SIZE : nat) (curr : list GraphData)
    (p : GraphData) : list GraphData :=
  let next := curr ++ [p] in
  if bool_decide (MAX_DATA_SIZE < length next) then tail next else next.

Definition MAX_DATA_SIZE : nat := 1000.

End App.

(** ** Sample data for the scenarios *)
Module Samples.

(** An altimeter record [{timestamp: t, fields: {alt}}]. *)
Definition reading (t alt : Z) : Telemetry.TelemetryData :=
  Telemetry.mkTelemetryData t {[ "alt" := Telemetry.FNumber alt ]}.

Definition frame (t : Z) (b64 : string) : Video.VideoFrameForFrontend :=
  Video.mkFrame t b64 640 480 "jpeg".

Definition resolved : Completion unit := Normal tt.

(** [new TelemetryStore("altimeter", n)] and [new VideoStore("A")]. *)
Definition altimeter (n : Z) : Telemetry.TelemetryStore :=
  Telemetry.mkStore "altimeter" [] None [] n None.

Definition cameraA : Video.VideoStore := Video.mkStore "A" None [] None.

End Samples.

(** ** Bookkeeping used by the statements *)

(** How many times a callback is registered in a subscriber array. *)
Definition registrations (cb : Callback) (l : list Callback) : nat :=
  length (filter (fun c => c = cb) l).

Section Lifecycle.
Context {S V : Type} (held : S -> option UnlistenFn).

(** The channel holds exactly the listener whose unlisten function the
    store keeps, and none when it keeps none. *)
Definition tidy (w : World S V) : Prop :=
  listeners w = option_list (held (this w)).

(** Every id handed out so far is below [next_id], no unlisten function has
    been called twice, and the one still held has not been called. *)
Definition once (w : World S V) : Prop :=
  NoDup (unlistened (trace w))
  /\ Forall (fun h => h < next_id w) (unlistened (trace w))
  /\ forall h, held (this w) = Some h -> h < next_id w /\ h ∉ unlistened (trace w).

End Lifecycle.

(** ** Helper functions of the binding layer *)
Module Helpers.

(** [createTelemetryData(fields)]; [now] is what [Date.now()] returns. *)
Definition createTelemetryData (now : Z)
    (fields : gmap string Telemetry.FieldValue) : Telemetry.TelemetryData :=
  Telemetry.mkTelemetryData now fields.

(** [data.fields[field]]: [None] is [undefined]. *)
Definition getFieldValue (data : Telemetry.TelemetryData) (field : string) :
    option Telemetry.FieldValue :=
  Telemetry.fields data !! field.

(** [typeof value === 'number' ? value : defaultValue], with [defaultValue = 0]
    when the argument is omitted. *)
Definition getNumericField (data : Telemetry.TelemetryData) (field : string)
    (defaultValue : option Z) : Z :=
  let value := Telemetry.fields data !! field in
  match value with
  | Some (Telemetry.FNumber z) => z
  | _ => default 0%Z defaultValue
  end.

(** [typeof value === 'string' ? value : defaultValue], with the empty string
    as [defaultValue] when the argument is omitted. *)
Definition getStringField (data : Telemetry.TelemetryData) (field : string)
    (defaultValue : option string) : string :=
  let value := Telemetry.fields data !! field in
  match value with
  | Some (Telemetry.FString v) => v
  | _ => default EmptyString defaultValue
  end.

(** [videoFrameToImageUrl(frame)]: the URL it returns and what it writes
    with [console.warn]. *)
Definition videoFrameToImageUrl (frame : Video.VideoFrameForFrontend) :
    string * list string :=
  if bool_decide (Video.format frame = "jpeg" \/ Video.format frame = "jpg")
  then ("data:image/jpeg;base64," +:+ Video.data_base64 frame, [])
  else if bool_decide (Video.format frame = "png")
  then ("data:image/png;base64," +:+ Video.data_base64 frame, [])
  else (EmptyString, ["Raw format needs conversion to displayable format"]).

End Helpers.

(** ** Bookkeeping for programs and traces *)

(** How many times a callback has been called according to a trace. *)
Definition calls_to {V} (cb : Callback) (t : list (Effect V)) : nat :=
  length (filter (fun c => c.1 = cb) (calls t)).

(** The live listeners are the ids handed out so far, oldest first, without
    those whose unlisten function has been called. *)
Definition ledger {S V} (w : World S V) : Prop :=
  listeners w = filter (fun h => h ∉ unlistened (trace w)) (seq 0 (next_id w)).

(** A [start()] whose snapshot and listener registration both succeed. *)
Definition t_attaches (op : Telemetry.Op) : bool :=
  match op with
  | Telemetry.Start (Normal _) (Normal _) => true
  | _ => false
  end.

Definition v_attaches (op : Video.Op) : bool :=
  match op with
  | Video.Start (Normal _) (Normal _) => true
  | _ => false
  end.

(** Every snapshot the backend returns has at most [n] records. *)
Definition fits (n : nat) (op : Telemetry.Op) : bool :=
  match op with
  | Telemetry.Start (Normal l) _ | Telemetry.Refresh (Normal l) =>
      bool_decide (length l <= n)
  | _ => true
  end.

(** The operation is [subscribe(cb)]. *)
Definition t_subscribes (cb : Callback) (op : Telemetry.Op) : bool :=
  match op with
  | Telemetry.Subscribe c => bool_decide (c = cb)
  | _ => false
  end.

Definition v_subscribes (cb : Callback) (op : Video.Op) : bool :=
  match op with
  | Video.Subscribe c => bool_decide (c = cb)
  | _ => false
  end.

(** The ids of all live listeners are below [next_id]; and the listener
    [oh], when there is one, is live although it is not the one whose
    unlisten function the store holds: the store can no longer release
    it. *)
Definition leaked {S V} (held : S -> option UnlistenFn) (oh : option UnlistenFn)
    (w : World S V) : Prop :=
  Forall (fun h' => h' < next_id w) (listeners w)
  /\ forall h, oh = Some h -> h ∈ listeners w /\ held (this w) ≠ Some h.

(** Between awaited calls: the channel holds exactly the listener whose
    unlisten function the store keeps, and at most one [start()] is
    suspended, in which case the store keeps none. *)
Definition t_orderly (a : Telemetry.Async) : Prop :=
  tidy Telemetry.unlisten (Telemetry.world a)
  /\ (Telemetry.pending a = []
      \/ (length (Telemetry.pending a) = 1
          /\ Telemetry.unlisten (this (Telemetry.world a)) = None)).

Definition v_orderly (a : Video.Async) : Prop :=
  tidy Video.unlisten (Video.world a)
  /\ (Video.pending a = []
      \/ (length (Video.pending a) = 1
          /\ Video.unlisten (this (Video.world a)) = None)).

(** * Properties *)

(** ** Runtime lemmas *)

Lemma world_eta {S V} (w : World S V) :
  mkWorld (this w) (listeners w) (next_id w) (trace w) = w.
Proof. by destruct w. Qed.

Lemma slice_neg_suffix {A} (n : Z) (l : list A) :
  exists k, slice n l = drop k l /\ k <= length l.
Proof.
  unfold slice. eexists; split; [reflexivity|]. destruct (n <? 0)%Z eqn:E; lia.
Qed.

(** [slice(-n)] keeps the last [n] elements when [n] is positive. *)
Lemma slice_last {A} (n : nat) (l : list A) :
  0 < n -> slice (- Z.of_nat n) l = drop (length l - n) l.
Proof.
  intros Hn. unfold slice.
  destruct (- Z.of_nat n <? 0)%Z eqn:E; [|lia].
  f_equal. lia.
Qed.

(** [slice(-0)] is [slice(0)]: the whole array. *)
Lemma slice_zero {A} (l : list A) : slice (- 0) l = l.
Proof. unfold slice. simpl. by rewrite Z.min_l by lia. Qed.

Lemma unlistened_app {V} (t1 t2 : list (Effect V)) :
  unlistened (t1 ++ t2) = unlistened t1 ++ unlistened t2.
Proof.
  induction t1 as [|[] t1 IH]; simpl; rewrite ?IH; done.
Qed.

Lemma calls_app {V} (t1 t2 : list (Effect V)) :
  calls (t1 ++ t2) = calls t1 ++ calls t2.
Proof.
  induction t1 as [|[] t1 IH]; simpl; rewrite ?IH; done.
Qed.

Lemma unlistened_called {V} (v : V) (l : list Callback) :
  unlistened (map (fun cb => Called cb v) l) = [].
Proof. induction l as [|cb l IH]; simpl; done. Qed.

Lemma calls_called {V} (v : V) (l : list Callback) :
  calls (map (fun cb => Called cb v) l) = map (fun cb => (cb, v)) l.
Proof. induction l as [|cb l IH]; simpl; rewrite ?IH; done. Qed.

(** Cutting a buffer to its last [n] elements before appending does not
    change what the last [n] elements are afterwards. *)
Lemma drop_cut_app {A} (n : nat) (l l' : list A) :
  drop (length (drop (length l - n) l ++ l') - n) (drop (length l - n) l ++ l')
  = drop (length (l ++ l') - n) (l ++ l').
Proof.
  destruct (decide (length l <= n)) as [Hle|Hgt].
  - by replace (length l - n) with 0 by lia.
  - rewrite !length_app, length_drop.
    replace (length l - (length l - n) + length l' - n) with (length l') by lia.
    replace (length l + length l' - n) with ((length l - n) + length l') by lia.
    rewrite <- drop_drop. by rewrite (drop_app_le l) by lia.
Qed.

(** ** What each TelemetryStore method does to the world *)

Import Telemetry.

Arguments Telemetry.notify : simpl never.

Ltac t_unfold :=
  unfold Telemetry.start, Telemetry.refresh, Telemetry.stop, on_update,
    onTelemetryUpdate, getTelemetry, invoke, listen, bind, get, modify,
    effect, await, ret; simpl.

Lemma t_forEach_call (l : list Callback) (w : Telemetry.W) :
  forEach l (fun callback => do s' <- get; call callback (data s')) w
  = (Normal tt,
     mkWorld (this w) (listeners w) (next_id w)
       (trace w ++ map (fun cb => Called cb (data (this w))) l)).
Proof.
  revert w. induction l as [|cb l IH]; intros w; simpl.
  - unfold ret. by rewrite app_nil_r, world_eta.
  - unfold bind at 1. unfold bind at 1. unfold get, call, effect. simpl.
    rewrite IH. simpl. by rewrite <- app_assoc.
Qed.

Lemma t_notify_run (w : Telemetry.W) :
  Telemetry.notify w
  = (Normal tt,
     mkWorld (this w) (listeners w) (next_id w)
       (trace w ++ map (fun cb => Called cb (data (this w))) (subscribers (this w)))).
Proof. unfold Telemetry.notify, bind, get. apply t_forEach_call. Qed.

Lemma t_on_update_run (d : TelemetryData) (w : Telemetry.W) :
  on_update d w
  = (Normal tt,
     let s := this w in
     let window := slice (- maxPoints s) (data s ++ [d]) in
     mkWorld (mkStore (key s) window (Some d) (subscribers s) (maxPoints s) (unlisten s))
       (listeners w) (next_id w)
       (trace w ++ map (fun cb => Called cb window) (subscribers s))).
Proof.
  unfold on_update, bind, modify. rewrite t_notify_run. reflexivity.
Qed.

Lemma t_start_rejected (e : JsError) (attach : Completion unit) (w : Telemetry.W) :
  Telemetry.start (Throw e) attach w
  = (Throw e,
     mkWorld (this w) (listeners w) (next_id w)
       (trace w ++ [Invoked "get_telemetry" (key (this w))])).
Proof. reflexivity. Qed.

Lemma t_start_attach_rejected (existing : list TelemetryData) (e : JsError)
    (w : Telemetry.W) :
  Telemetry.start (Normal existing) (Throw e) w
  = (Throw e,
     mkWorld (seeded existing (this w)) (listeners w) (next_id w)
       (trace w ++ [Invoked "get_telemetry" (key (this w))]
          ++ map (fun cb => Called cb existing) (subscribers (this w)))).
Proof.
  t_unfold. unfold seeded.
  destruct (bool_decide (0 < length existing)); simpl;
    rewrite t_notify_run; simpl; by rewrite <- app_assoc.
Qed.

Lemma t_start_ok (existing : list TelemetryData) (w : Telemetry.W) :
  Telemetry.start (Normal existing) (Normal tt) w
  = (Normal tt,
     mkWorld (set_unlisten (Some (next_id w)) (seeded existing (this w)))
       (listeners w ++ [next_id w]) (Datatypes.S (next_id w))
       (trace w ++ [Invoked "get_telemetry" (key (this w))]
          ++ map (fun cb => Called cb existing) (subscribers (this w))
          ++ [Listened "telemetry-update" (next_id w)])).
Proof.
  t_unfold. unfold seeded.
  destruct (bool_decide (0 < length existing)); simpl;
    rewrite t_notify_run; simpl; by rewrite <- !app_assoc.
Qed.

Lemma t_stop_run (w : Telemetry.W) :
  Telemetry.stop w
  = (Normal tt,
     match unlisten (this w) with
     | Some h =>
         mkWorld (set_unlisten None (this w))
           (filter (fun h' => h' ≠ h) (listeners w)) (next_id w)
           (trace w ++ [Unlistened h])
     | None => w
     end).
Proof.
  unfold Telemetry.stop, bind, get.
  destruct (unlisten (this w)); reflexivity.
Qed.

Lemma t_subscribe_run (callback : Callback) (w : Telemetry.W) :
  Telemetry.subscribe callback w
  = (Normal (Telemetry.disposer callback),
     mkWorld (set_subscribers (subscribers (this w) ++ [callback]) (this w))
       (listeners w) (next_id w)
       (trace w ++ [Called callback (data (this w))])).
Proof. reflexivity. Qed.

Lemma t_disposer_run (callback : Callback) (w : Telemetry.W) :
  Telemetry.disposer callback w
  = (Normal tt,
     mkWorld
       (set_subscribers (filter (fun cb => cb ≠ callback) (subscribers (this w))) (this w))
       (listeners w) (next_id w) (trace w)).
Proof. reflexivity. Qed.

Lemma t_refresh_rejected (e : JsError) (w : Telemetry.W) :
  Telemetry.refresh (Throw e) w
  = (Throw e,
     mkWorld (this w) (listeners w) (next_id w)
       (trace w ++ [Invoked "get_telemetry" (key (this w))])).
Proof. reflexivity. Qed.

Lemma t_refresh_ok (d : list TelemetryData) (w : Telemetry.W) :
  Telemetry.refresh (Normal d) w
  = (Normal tt,
     mkWorld (seeded d (this w)) (listeners w) (next_id w)
       (trace w ++ [Invoked "get_telemetry" (key (this w))]
          ++ map (fun cb => Called cb d) (subscribers (this w)))).
Proof.
  t_unfold. unfold seeded.
  destruct (bool_decide (0 < length d)); simpl;
    rewrite t_notify_run; simpl; by rewrite <- app_assoc.
Qed.

Lemma t_emit_single (d : TelemetryData) (h : UnlistenFn) (w : Telemetry.W) :
  listeners w = [h] -> Telemetry.emit d w = on_update d w.
Proof.
  intros Hl. unfold Telemetry.emit. rewrite Hl. simpl.
  unfold bind, ret. by destruct (on_update d w) as [[[]|e] w'].
Qed.

Lemma forEach_preserves {S V A} (P : World S V -> Prop) (f : A -> M S V unit)
    (l : list A) :
  (forall x w, P w -> P (snd (f x w))) ->
  forall w, P w -> P (snd (forEach l f w)).
Proof.
  intros Hf. induction l as [|x l IH]; intros w Hw; simpl; [done|].
  unfold bind. specialize (Hf x w Hw).
  destruct (f x w) as [[[]|e] w']; simpl in *; auto.
Qed.

(** ** What each VideoStore method does to the world *)

Arguments Video.notify : simpl never.

Lemma v_forEach_call (l : list Callback) (w : Video.W) :
  forEach l (fun callback => do s' <- get; call callback (Video.currentFrame s')) w
  = (Normal tt,
     mkWorld (this w) (listeners w) (next_id w)
       (trace w ++ map (fun cb => Called cb (Video.currentFrame (this w))) l)).
Proof.
  revert w. induction l as [|cb l IH]; intros w; simpl.
  - unfold ret. by rewrite app_nil_r, world_eta.
  - unfold bind at 1. unfold bind at 1. unfold get, call, effect. simpl.
    rewrite IH. simpl. by rewrite <- app_assoc.
Qed.

Lemma v_notify_run (w : Video.W) :
  Video.notify w
  = (Normal tt,
     mkWorld (this w) (listeners w) (next_id w)
       (trace w ++ map (fun cb => Called cb (Video.currentFrame (this w)))
                     (Video.subscribers (this w)))).
Proof. unfold Video.notify, bind, get. apply v_forEach_call. Qed.

Ltac v_unfold :=
  unfold Video.start, Video.refresh, Video.stop, Video.on_frame,
    Video.onVideoFrameUpdate, Video.getLatestVideoFrame, invoke, listen,
    bind, get, modify, effect, await, ret; simpl.

Lemma v_on_frame_run (frame : Video.VideoFrameForFrontend) (w : Video.W) :
  Video.on_frame frame w
  = (Normal tt,
     mkWorld (Video.set_currentFrame (Some frame) (this w)) (listeners w) (next_id w)
       (trace w ++ map (fun cb => Called cb (Some frame)) (Video.subscribers (this w)))).
Proof. v_unfold. by rewrite v_notify_run. Qed.

Lemma v_start_rejected (e : JsError) (attach : Completion unit) (w : Video.W) :
  Video.start (Throw e) attach w
  = (Throw e,
     mkWorld (this w) (listeners w) (next_id w)
       (trace w ++ [Invoked "get_latest_video_frame" (Video.key (this w))])).
Proof. reflexivity. Qed.

Lemma v_start_attach_rejected (f : option Video.VideoFrameForFrontend) (e : JsError)
    (w : Video.W) :
  Video.start (Normal f) (Throw e) w
  = (Throw e,
     mkWorld (Video.set_currentFrame f (this w)) (listeners w) (next_id w)
       (trace w ++ [Invoked "get_latest_video_frame" (Video.key (this w))]
          ++ map (fun cb => Called cb f) (Video.subscribers (this w)))).
Proof. v_unfold. rewrite v_notify_run. simpl. by rewrite <- app_assoc. Qed.

Lemma v_start_ok (f : option Video.VideoFrameForFrontend) (w : Video.W) :
  Video.start (Normal f) (Normal tt) w
  = (Normal tt,
     mkWorld (Video.set_unlisten (Some (next_id w)) (Video.set_currentFrame f (this w)))
       (listeners w ++ [next_id w]) (Datatypes.S (next_id w))
       (trace w ++ [Invoked "get_latest_video_frame" (Video.key (this w))]
          ++ map (fun cb => Called cb f) (Video.subscribers (this w))
          ++ [Listened "video-frame-update" (next_id w)])).
Proof. v_unfold. rewrite v_notify_run. simpl. by rewrite <- !app_assoc. Qed.

Lemma v_stop_run (w : Video.W) :
  Video.stop w
  = (Normal tt,
     match Video.unlisten (this w) with
     | Some h =>
         mkWorld (Video.set_unlisten None (this w))
           (filter (fun h' => h' ≠ h) (listeners w)) (next_id w)
           (trace w ++ [Unlistened h])
     | None => w
     end).
Proof.
  unfold Video.stop, bind, get.
  destruct (Video.unlisten (this w)); reflexivity.
Qed.

Lemma v_subscribe_run (callback : Callback) (w : Video.W) :
  Video.subscribe callback w
  = (Normal (Video.disposer callback),
     mkWorld
       (Video.set_subscribers (Video.subscribers (this w) ++ [callback]) (this w))
       (listeners w) (next_id w)
       (trace w ++ [Called callback (Video.currentFrame (this w))])).
Proof. reflexivity. Qed.

Lemma v_refresh_rejected (e : JsError) (w : Video.W) :
  Video.refresh (Throw e) w
  = (Throw e,
     mkWorld (this w) (listeners w) (next_id w)
       (trace w ++ [Invoked "get_latest_video_frame" (Video.key (this w))])).
Proof. reflexivity. Qed.

Lemma v_refresh_ok (f : option Video.VideoFrameForFrontend) (w : Video.W) :
  Video.refresh (Normal f) w
  = (Normal tt,
     mkWorld (Video.set_currentFrame f (this w)) (listeners w) (next_id w)
       (trace w ++ [Invoked "get_latest_video_frame" (Video.key (this w))]
          ++ map (fun cb => Called cb f) (Video.subscribers (this w)))).
Proof. v_unfold. rewrite v_notify_run. simpl. by rewrite <- app_assoc. Qed.

Lemma v_emit_single (ev : Video.VideoEvent) (h : UnlistenFn) (w : Video.W) :
  listeners w = [h] -> Video.emit ev w = Video.on_frame (Video.payload ev) w.
Proof.
  intros Hl. unfold Video.emit. rewrite Hl. simpl.
  unfold bind, ret. by destruct (Video.on_frame (Video.payload ev) w) as [[[]|e] w'].
Qed.

(** ** The bounded window *)

Lemma t_emit_window (n : nat) (h : UnlistenFn) (rs : list TelemetryData) :
  0 < n ->
  forall w : Telemetry.W,
    maxPoints (this w) = Z.of_nat n ->
    listeners w = [h] ->
    rs ≠ [] ->
    data (this (Telemetry.run (map Telemetry.Emit rs) w))
    = drop (length (data (this w) ++ rs) - n) (data (this w) ++ rs).
Proof.
  intros Hn. induction rs as [|r rs IH]; intros w Hmax Hl Hne; [done|].
  simpl. unfold Telemetry.step at 1. simpl.
  rewrite (t_emit_single r h w Hl), t_on_update_run. simpl.
  rewrite Hmax, slice_last by done.
  destruct rs as [|r' rs]; [done|].
  rewrite IH by done. simpl.
  rewrite drop_cut_app. by rewrite <- app_assoc.
Qed.

(** With [maxPoints = 0] the cut [slice(-0)] keeps everything. *)
Lemma t_emit_window_zero (h : UnlistenFn) (rs : list TelemetryData) :
  forall w : Telemetry.W,
    maxPoints (this w) = 0%Z ->
    listeners w = [h] ->
    data (this (Telemetry.run (map Telemetry.Emit rs) w)) = data (this w) ++ rs.
Proof.
  induction rs as [|r rs IH]; intros w Hmax Hl; simpl.
  - by rewrite app_nil_r.
  - unfold Telemetry.step at 1. simpl.
    rewrite (t_emit_single r h w Hl), t_on_update_run. simpl.
    rewrite IH by done. simpl. rewrite Hmax, slice_zero. by rewrite <- app_assoc.
Qed.

(** C3. A store of capacity [N >= 1] with one live listener that receives
    [N + k] records holds exactly the last [N] of them, in arrival order:
    the window has length [min N (N + k)], the [k] oldest records are the
    ones evicted, and it does not matter what the buffer held before. *)
Theorem C3_window_is_last_N (N k : nat) (h : UnlistenFn)
    (rs : list TelemetryData) (w : Telemetry.W) :
  1 <= N ->
  maxPoints (this w) = Z.of_nat N ->
  listeners w = [h] ->
  length rs = N + k ->
  let w' := Telemetry.run (map Telemetry.Emit rs) w in
  fst (getAllData w') = Normal (drop k rs)
  /\ length (drop k rs) = N `min` (N + k)
  /\ rs = take k rs ++ drop k rs.
Proof.
  intros HN Hmax Hl Hlen w'. split; [|split].
  - unfold getAllData, bind, get, ret. simpl. f_equal. subst w'.
    assert (rs ≠ []) as Hne by (destruct rs; simpl in *; [lia|done]).
    rewrite (t_emit_window N h) by done.
    rewrite length_app, Hlen.
    replace (length (data (this w)) + (N + k) - N) with (length (data (this w)) + k) by lia.
    rewrite <- drop_drop. by rewrite drop_app_length.
  - rewrite length_drop. lia.
  - by rewrite take_drop.
Qed.

(** ** The current record *)

Lemma last_drop_nonempty {A} (k : nat) (l : list A) :
  drop k l ≠ [] -> last (drop k l) = last l.
Proof.
  intros Hne. rewrite <- (take_drop k l) at 2. rewrite last_app.
  apply last_is_Some in Hne as [x ->]. done.
Qed.

Lemma seeded_current (existing : list TelemetryData) (s : TelemetryStore) :
  data (seeded existing s) ≠ [] ->
  currentData (seeded existing s) = last (data (seeded existing s)).
Proof.
  simpl. intros Hne. rewrite last_lookup.
  rewrite bool_decide_eq_true_2 by (destruct existing; simpl; [done|lia]).
  f_equal. lia.
Qed.

Lemma seeded_empty (s : TelemetryStore) :
  currentData (seeded [] s) = currentData s.
Proof. reflexivity. Qed.

Lemma t_on_update_current (d : TelemetryData) (w : Telemetry.W) :
  let s' := this (snd (on_update d w)) in
  data s' ≠ [] -> currentData s' = last (data s').
Proof.
  rewrite t_on_update_run. simpl. intros Hne.
  destruct (slice_neg_suffix (- maxPoints (this w)) (data (this w) ++ [d]))
    as (k & Hk & _).
  rewrite Hk in *. rewrite last_drop_nonempty by done. by rewrite last_snoc.
Qed.

Lemma t_step_current (op : Telemetry.Op) (w : Telemetry.W) :
  (data (this w) ≠ [] -> currentData (this w) = last (data (this w))) ->
  let s' := this (Telemetry.step op w) in
  data s' ≠ [] -> currentData s' = last (data s').
Proof.
  intros Hw. unfold Telemetry.step. destruct op as [snap att| |cb|cb|snap|d]; simpl.
  - destruct snap as [existing|e]; [destruct att as [[]|e]|].
    + rewrite t_start_ok. simpl. apply (seeded_current existing (this w)).
    + rewrite t_start_attach_rejected. apply seeded_current.
    + rewrite t_start_rejected. done.
  - rewrite t_stop_run. simpl. by destruct (unlisten (this w)).
  - done.
  - done.
  - destruct snap as [existing|e].
    + rewrite t_refresh_ok. apply seeded_current.
    + rewrite t_refresh_rejected. done.
  - unfold Telemetry.emit.
    apply (forEach_preserves
             (fun w : Telemetry.W =>
                data (this w) ≠ [] -> currentData (this w) = last (data (this w))));
      [|done].
    intros _ w' _. apply t_on_update_current.
Qed.

Lemma t_run_current (ops : list Telemetry.Op) (w : Telemetry.W) :
  (data (this w) ≠ [] -> currentData (this w) = last (data (this w))) ->
  let s' := this (Telemetry.run ops w) in
  data s' ≠ [] -> currentData s' = last (data s').
Proof.
  revert w. induction ops as [|op ops IH]; intros w Hw; simpl; [done|].
  apply IH. by apply t_step_current.
Qed.

Lemma t_step_quiet (op : Telemetry.Op) (w : Telemetry.W) :
  Telemetry.quiet op = true ->
  data (this w) = [] /\ currentData (this w) = None ->
  data (this (Telemetry.step op w)) = []
  /\ currentData (this (Telemetry.step op w)) = None.
Proof.
  intros Hq [Hd Hc]. unfold Telemetry.step.
  destruct op as [snap att| |cb|cb|snap|d]; simpl in *; try done.
  - destruct snap as [[|r existing]|e]; try done.
    + destruct att as [[]|e].
      * rewrite t_start_ok. done.
      * rewrite t_start_attach_rejected. done.
  - rewrite t_stop_run. by destruct (unlisten (this w)).
  - destruct snap as [[|r existing]|e]; try done.
    rewrite t_refresh_ok. done.
Qed.

Lemma t_run_quiet (ops : list Telemetry.Op) (w : Telemetry.W) :
  forallb Telemetry.quiet ops = true ->
  data (this w) = [] /\ currentData (this w) = None ->
  data (this (Telemetry.run ops w)) = []
  /\ currentData (this (Telemetry.run ops w)) = None.
Proof.
  revert w. induction ops as [|op ops IH]; intros w Hq Hw; simpl in *; [done|].
  apply andb_prop in Hq as [Hq1 Hq2]. apply IH; [done|]. by apply t_step_quiet.
Qed.

(** C5 (amended). In every state a freshly constructed store can reach,
    a non-empty buffer has the value of [getCurrentData()] as its last
    record; while no record has reached the store (every snapshot so far
    was empty or failed, no event arrived) the buffer is empty and
    [getCurrentData()] is null; and an empty snapshot, in [start()] (whatever
    the listener registration then does) or in [refresh()], empties the
    buffer and leaves [getCurrentData()] as it was. *)
Theorem C5_current_is_last_of_nonempty_window (k : string) (n : option Z)
    (s : TelemetryStore) (ops : list Telemetry.Op) :
  Telemetry.constructor k n = Normal s ->
  let w := Telemetry.run ops (Telemetry.fresh s) in
  (forall window, fst (getAllData w) = Normal window -> window ≠ [] ->
     fst (getCurrentData w) = Normal (last window))
  /\ (forallb Telemetry.quiet ops = true ->
      fst (getAllData w) = Normal [] /\ fst (getCurrentData w) = Normal None)
  /\ (forall attach : Completion unit,
        let w' := Telemetry.step (Telemetry.Start (Normal []) attach) w in
        fst (getAllData w') = Normal []
        /\ fst (getCurrentData w') = fst (getCurrentData w))
  /\ (let w' := Telemetry.step (Telemetry.Refresh (Normal [])) w in
      fst (getAllData w') = Normal []
      /\ fst (getCurrentData w') = fst (getCurrentData w))
  /\ (let w' := snd (Telemetry.start_seed [] w) in
      fst (getAllData w') = Normal []
      /\ fst (getCurrentData w') = fst (getCurrentData w)).
Proof.
  intros Hs w. injection Hs as <-. split; [|split; [|split; [|split]]].
  - intros window Hwin Hne. unfold getAllData, getCurrentData, bind, get, ret in *.
    simpl in *. injection Hwin as <-. f_equal.
    by apply (t_run_current ops (Telemetry.fresh _)).
  - intros Hq. subst w. unfold getAllData, getCurrentData, bind, get, ret. simpl.
    destruct (t_run_quiet ops
                (Telemetry.fresh (mkStore k [] None [] (default 100%Z n) None)) Hq)
      as [Hd Hc]; [done|].
    by rewrite Hd, Hc.
  - intros attach w'. subst w'. unfold Telemetry.step. cbn [Telemetry.perform].
    destruct attach as [[]|e]; rewrite ?t_start_ok, ?t_start_attach_rejected; done.
  - intros w'. subst w'. unfold Telemetry.step. cbn [Telemetry.perform].
    by rewrite t_refresh_ok.
  - intros w'. subst w'. unfold Telemetry.start_seed, bind, modify. simpl.
    by rewrite t_notify_run.
Qed.

(** ** The listener lifecycle *)

Section LifecycleFacts.
Context {S V : Type} (held : S -> option UnlistenFn).

Lemma tidy_same (w w' : World S V) :
  listeners w' = listeners w -> held (this w') = held (this w) ->
  tidy held w -> tidy held w'.
Proof. unfold tidy. by intros -> ->. Qed.

Lemma once_same (w w' : World S V) :
  next_id w' = next_id w -> held (this w') = held (this w) ->
  unlistened (trace w') = unlistened (trace w) ->
  once held w -> once held w'.
Proof. unfold once. by intros -> -> ->. Qed.

(** A successful [listen] while nothing is held. *)
Lemma tidy_attach (w w' : World S V) :
  held (this w) = None ->
  listeners w' = listeners w ++ [next_id w] ->
  held (this w') = Some (next_id w) ->
  tidy held w -> tidy held w'.
Proof. unfold tidy. intros Hn -> ->. rewrite Hn. by intros ->. Qed.

Lemma once_attach (w w' : World S V) :
  next_id w' = Datatypes.S (next_id w) ->
  held (this w') = Some (next_id w) ->
  unlistened (trace w') = unlistened (trace w) ->
  once held w -> once held w'.
Proof.
  unfold once. intros -> -> -> (Hnd & Hlt & _). split; [done|]. split.
  - eapply Forall_impl; [exact Hlt|]. simpl. lia.
  - intros h [= <-]. split; [lia|].
    intros Hin. rewrite Forall_forall in Hlt. specialize (Hlt _ Hin). lia.
Qed.

(** Calling the held unlisten function and forgetting it. *)
Lemma tidy_release (h : UnlistenFn) (w w' : World S V) :
  held (this w) = Some h ->
  listeners w' = filter (fun h' => h' ≠ h) (listeners w) ->
  held (this w') = None ->
  tidy held w -> tidy held w'.
Proof.
  unfold tidy. intros Hh -> ->. rewrite Hh. intros ->. simpl.
  rewrite filter_cons_False by (intros Hne; by apply Hne). done.
Qed.

Lemma once_release (h : UnlistenFn) (w w' : World S V) :
  held (this w) = Some h ->
  next_id w' = next_id w ->
  held (this w') = None ->
  unlistened (trace w') = unlistened (trace w) ++ [h] ->
  once held w -> once held w'.
Proof.
  unfold once. intros Hh -> -> -> (Hnd & Hlt & Hheld).
  destruct (Hheld h Hh) as [Hb Hnin]. split; [|split; [|done]].
  - apply NoDup_app. split; [done|]. split; [|apply NoDup_singleton].
    intros x Hx Hx'. apply list_elem_of_singleton in Hx' as ->. done.
  - apply Forall_app. split; [done|]. by apply Forall_singleton.
Qed.

End LifecycleFacts.

Ltac trace_simpl :=
  repeat (progress (rewrite ?unlistened_app, ?unlistened_called; simpl));
  rewrite ?app_nil_r.

Lemma t_step_tidy (op : Telemetry.Op) (w : Telemetry.W) :
  match op with
  | Telemetry.Start _ _ => unlisten (this w) = None
  | _ => True
  end ->
  tidy unlisten w -> tidy unlisten (Telemetry.step op w).
Proof.
  intros Hop Hw. unfold Telemetry.step.
  destruct op as [snap att| |cb|cb|snap|d]; simpl.
  - destruct snap as [existing|e]; [destruct att as [[]|e]|].
    + rewrite t_start_ok. by eapply tidy_attach.
    + rewrite t_start_attach_rejected. by eapply tidy_same.
    + rewrite t_start_rejected. by eapply tidy_same.
  - rewrite t_stop_run. simpl. destruct (unlisten (this w)) as [h|] eqn:Hh; [|done].
    by eapply (tidy_release unlisten h w).
  - by eapply tidy_same.
  - by eapply tidy_same.
  - destruct snap as [existing|e].
    + rewrite t_refresh_ok. by eapply tidy_same.
    + rewrite t_refresh_rejected. by eapply tidy_same.
  - unfold Telemetry.emit. apply (forEach_preserves (tidy unlisten)); [|done].
    intros _ w' Hw'. rewrite t_on_update_run. by eapply tidy_same.
Qed.

Lemma t_step_once (op : Telemetry.Op) (w : Telemetry.W) :
  once unlisten w -> once unlisten (Telemetry.step op w).
Proof.
  intros Hw. unfold Telemetry.step.
  destruct op as [snap att| |cb|cb|snap|d]; simpl.
  - destruct snap as [existing|e]; [destruct att as [[]|e]|].
    + rewrite t_start_ok. eapply once_attach; [..|exact Hw]; simpl; try done.
      by trace_simpl.
    + rewrite t_start_attach_rejected. eapply once_same; [..|exact Hw]; simpl; try done.
      by trace_simpl.
    + rewrite t_start_rejected. eapply once_same; [..|exact Hw]; simpl; try done.
      by trace_simpl.
  - rewrite t_stop_run. simpl. destruct (unlisten (this w)) as [h|] eqn:Hh; [|done].
    eapply (once_release unlisten h w); simpl; try done. by trace_simpl.
  - eapply once_same; [..|exact Hw]; simpl; try done. by trace_simpl.
  - by eapply once_same; [..|exact Hw].
  - destruct snap as [existing|e].
    + rewrite t_refresh_ok. eapply once_same; [..|exact Hw]; simpl; try done.
      by trace_simpl.
    + rewrite t_refresh_rejected. eapply once_same; [..|exact Hw]; simpl; try done.
      by trace_simpl.
  - unfold Telemetry.emit. apply (forEach_preserves (once unlisten)); [|done].
    intros _ w' Hw'. rewrite t_on_update_run.
    eapply once_same; [..|exact Hw']; simpl; try done. by trace_simpl.
Qed.

Lemma t_run_tidy (ops : list Telemetry.Op) (w : Telemetry.W) :
  Telemetry.disciplined ops w = true ->
  tidy unlisten w -> tidy unlisten (Telemetry.run ops w).
Proof.
  revert w. induction ops as [|op ops IH]; intros w Hd Hw; simpl in *; [done|].
  apply andb_prop in Hd as [Hop Hd]. apply IH; [done|].
  apply t_step_tidy; [|done].
  destruct op; try done. by apply bool_decide_eq_true_1 in Hop.
Qed.

Lemma t_run_once (ops : list Telemetry.Op) (w : Telemetry.W) :
  once unlisten w -> once unlisten (Telemetry.run ops w).
Proof.
  revert w. induction ops as [|op ops IH]; intros w Hw; simpl; [done|].
  by apply IH, t_step_once.
Qed.

Lemma v_step_tidy (op : Video.Op) (w : Video.W) :
  match op with
  | Video.Start _ _ => Video.unlisten (this w) = None
  | _ => True
  end ->
  tidy Video.unlisten w -> tidy Video.unlisten (Video.step op w).
Proof.
  intros Hop Hw. unfold Video.step.
  destruct op as [snap att| |cb|cb|snap|d]; simpl.
  - destruct snap as [f|e]; [destruct att as [[]|e]|].
    + rewrite v_start_ok. by eapply tidy_attach.
    + rewrite v_start_attach_rejected. by eapply tidy_same.
    + rewrite v_start_rejected. by eapply tidy_same.
  - rewrite v_stop_run. simpl.
    destruct (Video.unlisten (this w)) as [h|] eqn:Hh; [|done].
    by eapply (tidy_release Video.unlisten h w).
  - by eapply tidy_same.
  - by eapply tidy_same.
  - destruct snap as [f|e].
    + rewrite v_refresh_ok. by eapply tidy_same.
    + rewrite v_refresh_rejected. by eapply tidy_same.
  - unfold Video.emit. apply (forEach_preserves (tidy Video.unlisten)); [|done].
    intros _ w' Hw'. rewrite v_on_frame_run. by eapply tidy_same.
Qed.

Lemma v_step_once (op : Video.Op) (w : Video.W) :
  once Video.unlisten w -> once Video.unlisten (Video.step op w).
Proof.
  intros Hw. unfold Video.step.
  destruct op as [snap att| |cb|cb|snap|d]; simpl.
  - destruct snap as [f|e]; [destruct att as [[]|e]|].
    + rewrite v_start_ok. eapply once_attach; [..|exact Hw]; simpl; try done.
      by trace_simpl.
    + rewrite v_start_attach_rejected. eapply once_same; [..|exact Hw]; simpl; try done.
      by trace_simpl.
    + rewrite v_start_rejected. eapply once_same; [..|exact Hw]; simpl; try done.
      by trace_simpl.
  - rewrite v_stop_run. simpl.
    destruct (Video.unlisten (this w)) as [h|] eqn:Hh; [|done].
    eapply (once_release Video.unlisten h w); simpl; try done. by trace_simpl.
  - eapply once_same; [..|exact Hw]; simpl; try done. by trace_simpl.
  - by eapply once_same; [..|exact Hw].
  - destruct snap as [f|e].
    + rewrite v_refresh_ok. eapply once_same; [..|exact Hw]; simpl; try done.
      by trace_simpl.
    + rewrite v_refresh_rejected. eapply once_same; [..|exact Hw]; simpl; try done.
      by trace_simpl.
  - unfold Video.emit. apply (forEach_preserves (once Video.unlisten)); [|done].
    intros _ w' Hw'. rewrite v_on_frame_run.
    eapply once_same; [..|exact Hw']; simpl; try done. by trace_simpl.
Qed.

Lemma v_run_tidy (ops : list Video.Op) (w : Video.W) :
  Video.disciplined ops w = true ->
  tidy Video.unlisten w -> tidy Video.unlisten (Video.run ops w).
Proof.
  revert w. induction ops as [|op ops IH]; intros w Hd Hw; simpl in *; [done|].
  apply andb_prop in Hd as [Hop Hd]. apply IH; [done|].
  apply v_step_tidy; [|done].
  destruct op; try done. by apply bool_decide_eq_true_1 in Hop.
Qed.

Lemma v_run_once (ops : list Video.Op) (w : Video.W) :
  once Video.unlisten w -> once Video.unlisten (Video.run ops w).
Proof.
  revert w. induction ops as [|op ops IH]; intros w Hw; simpl; [done|].
  by apply IH, v_step_once.
Qed.

Lemma t_fresh_tidy (s : TelemetryStore) : unlisten s = None -> tidy unlisten (Telemetry.fresh s).
Proof. unfold tidy. simpl. by intros ->. Qed.

Lemma t_fresh_once (s : TelemetryStore) : unlisten s = None -> once unlisten (Telemetry.fresh s).
Proof.
  unfold once. simpl. intros ->. split; [apply NoDup_nil_2|]. split; [done|]. done.
Qed.

Lemma v_fresh_tidy (s : Video.VideoStore) :
  Video.unlisten s = None -> tidy Video.unlisten (Video.fresh s).
Proof. unfold tidy. simpl. by intros ->. Qed.

Lemma v_fresh_once (s : Video.VideoStore) :
  Video.unlisten s = None -> once Video.unlisten (Video.fresh s).
Proof.
  unfold once. simpl. intros ->. split; [apply NoDup_nil_2|]. split; [done|]. done.
Qed.


(** Every prefix of a disciplined program is disciplined. *)
Lemma t_disciplined_prefix (ops1 ops2 : list Telemetry.Op) (w : Telemetry.W) :
  Telemetry.disciplined (ops1 ++ ops2) w = true -> Telemetry.disciplined ops1 w = true.
Proof.
  revert w. induction ops1 as [|op ops1 IH]; intros w; simpl; [done|].
  intros [H1 H2]%andb_prop. rewrite H1. simpl. by apply IH.
Qed.

Lemma v_disciplined_prefix (ops1 ops2 : list Video.Op) (w : Video.W) :
  Video.disciplined (ops1 ++ ops2) w = true -> Video.disciplined ops1 w = true.
Proof.
  revert w. induction ops1 as [|op ops1 IH]; intros w; simpl; [done|].
  intros [H1 H2]%andb_prop. rewrite H1. simpl. by apply IH.
Qed.

(** C9. [stop()] returns normally in every state, and a second [stop()]
    changes nothing at all: no further effect is recorded and the world is
    the one the first [stop()] left.  Along any run of either store no
    unlisten function is ever called twice. *)
Theorem C9_stop_is_idempotent :
  (forall w : Telemetry.W,
     fst (Telemetry.stop w) = Normal tt
     /\ Telemetry.stop (snd (Telemetry.stop w)) = (Normal tt, snd (Telemetry.stop w)))
  /\ (forall w : Video.W,
        fst (Video.stop w) = Normal tt
        /\ Video.stop (snd (Video.stop w)) = (Normal tt, snd (Video.stop w)))
  /\ (forall (k : string) (n : option Z) (s : TelemetryStore) (ops : list Telemetry.Op),
        Telemetry.constructor k n = Normal s ->
        NoDup (unlistened (trace (Telemetry.run ops (Telemetry.fresh s)))))
  /\ (forall (k : string) (s : Video.VideoStore) (ops : list Video.Op),
        Video.constructor k = Normal s ->
        NoDup (unlistened (trace (Video.run ops (Video.fresh s))))).
Proof.
  split; [|split; [|split]].
  - intros w. rewrite !t_stop_run. split; [done|]. simpl.
    destruct (unlisten (this w)) as [h|] eqn:Hh; simpl; [done|]. by rewrite Hh.
  - intros w. rewrite !v_stop_run. split; [done|]. simpl.
    destruct (Video.unlisten (this w)) as [h|] eqn:Hh; simpl; [done|]. by rewrite Hh.
  - intros k n s ops [= <-].
    apply (t_run_once ops). by apply t_fresh_once.
  - intros k s ops [= <-].
    apply (v_run_once ops). by apply v_fresh_once.
Qed.

(** ** Seeding, failure, and subscription *)

Ltac calls_simpl :=
  repeat (progress (rewrite ?calls_app, ?calls_called; simpl));
  rewrite ?app_nil_r.

(** C6. Whatever the store held when it was stopped, a [start()] whose
    snapshot arrives makes the buffer exactly that snapshot, keeps every
    subscriber registered before the restart, and calls each of them once,
    in registration order, with that snapshot. *)
Theorem C6_restart_replaces_window (w : Telemetry.W)
    (existing : list TelemetryData) (attach : Completion unit) :
  let w1 := snd (Telemetry.stop w) in
  let w2 := snd (Telemetry.start (Normal existing) attach w1) in
  fst (Telemetry.start (Normal existing) (Normal tt) w1) = Normal tt
  /\ fst (getAllData w2) = Normal existing
  /\ subscribers (this w2) = subscribers (this w)
  /\ calls (trace w2)
     = calls (trace w1) ++ map (fun cb => (cb, existing)) (subscribers (this w)).
Proof.
  intros w1 w2. subst w2 w1. rewrite t_stop_run. simpl.
  rewrite t_start_ok. split; [done|].
  destruct attach as [[]|e]; rewrite ?t_start_ok, ?t_start_attach_rejected;
    unfold getAllData, bind, get, ret; simpl;
    (split; [done|]);
    destruct (unlisten (this w)); simpl; (split; [done|]); by calls_simpl.
Qed.

(** C7. When the snapshot request of [start()] is rejected, [start()]
    throws that very error; the store object, the live listeners and the
    next listener id are untouched, the only thing that happened is the one
    request (no second request, no subscriber call, no listener), and a
    later [start()] does to the store what it would have done without the
    failed attempt. *)
Theorem C7_failed_fetch_leaves_store_unchanged (w : Telemetry.W) (e : JsError)
    (attach : Completion unit) :
  let r := Telemetry.start (Throw e) attach w in
  fst r = Throw e
  /\ this (snd r) = this w
  /\ listeners (snd r) = listeners w
  /\ next_id (snd r) = next_id w
  /\ trace (snd r) = trace w ++ [Invoked "get_telemetry" (key (this w))]
  /\ forall (existing : list TelemetryData) (attach' : Completion unit),
       let retry := Telemetry.start (Normal existing) attach' in
       fst (retry (snd r)) = fst (retry w)
       /\ this (snd (retry (snd r))) = this (snd (retry w))
       /\ listeners (snd (retry (snd r))) = listeners (snd (retry w)).
Proof.
  intros r. subst r. rewrite t_start_rejected. simpl.
  repeat (split; [done|]).
  intros existing [[]|e']; simpl;
    rewrite ?t_start_ok, ?t_start_attach_rejected; done.
Qed.

(** C8. [subscribe(callback)] registers the callback, calls it exactly
    once with the window (the current frame for a video store) as it is at
    that moment, and returns the disposer; that call is the only effect of
    [subscribe].  On a store that holds nothing yet the callback receives
    the empty array, respectively null. *)
Theorem C8_subscribe_delivers_current_once :
  (forall (callback : Callback) (w : Telemetry.W),
     let r := Telemetry.subscribe callback w in
     fst r = Normal (Telemetry.disposer callback)
     /\ trace (snd r) = trace w ++ [Called callback (data (this w))]
     /\ subscribers (this (snd r)) = subscribers (this w) ++ [callback]
     /\ data (this (snd r)) = data (this w))
  /\ (forall (callback : Callback) (w : Video.W),
        let r := Video.subscribe callback w in
        fst r = Normal (Video.disposer callback)
        /\ trace (snd r) = trace w ++ [Called callback (Video.currentFrame (this w))]
        /\ Video.subscribers (this (snd r)) = Video.subscribers (this w) ++ [callback]
        /\ Video.currentFrame (this (snd r)) = Video.currentFrame (this w))
  /\ (forall (k : string) (n : Z) (callback : Callback),
        trace (snd (Telemetry.subscribe callback
                      (Telemetry.fresh (mkStore k [] None [] n None))))
        = [Called callback []])
  /\ (forall (k : string) (callback : Callback),
        trace (snd (Video.subscribe callback
                      (Video.fresh (Video.mkStore k None [] None))))
        = [Called callback None]).
Proof.
  split; [|split; [|split]].
  - intros callback w. by rewrite t_subscribe_run.
  - intros callback w. by rewrite v_subscribe_run.
  - done.
  - done.
Qed.

(** ** Disposers *)

Lemma registrations_filter_same (cb : Callback) (l : list Callback) :
  registrations cb (filter (fun c => c ≠ cb) l) = 0.
Proof.
  unfold registrations. induction l as [|c l IH]; [done|].
  destruct (decide (c = cb)) as [->|Hne].
  - by rewrite filter_cons_False by (intros H; by apply H).
  - rewrite (filter_cons_True (fun c => c ≠ cb)) by done.
    by rewrite filter_cons_False by done.
Qed.

Lemma registrations_filter_other (cb cb' : Callback) (l : list Callback) :
  cb' ≠ cb ->
  registrations cb' (filter (fun c => c ≠ cb) l) = registrations cb' l.
Proof.
  intros Hne. unfold registrations. induction l as [|c l IH]; [done|].
  destruct (decide (c = cb)) as [->|Hc].
  - rewrite filter_cons_False by (intros H; by apply H).
    by rewrite (filter_cons_False (fun c => c = cb')) by done.
  - rewrite (filter_cons_True (fun c => c ≠ cb)) by done.
    destruct (decide (c = cb')) as [->|Hc'].
    + rewrite !(filter_cons_True (fun c => c = cb')) by done. simpl. by rewrite IH.
    + by rewrite !(filter_cons_False (fun c => c = cb')) by done.
Qed.

Lemma filter_ne_idem (cb : Callback) (l : list Callback) :
  filter (fun c => c ≠ cb) (filter (fun c => c ≠ cb) l) = filter (fun c => c ≠ cb) l.
Proof.
  induction l as [|c l IH]; [done|].
  destruct (decide (c = cb)) as [->|Hc].
  - by rewrite filter_cons_False by (intros H; by apply H).
  - rewrite !(filter_cons_True (fun c => c ≠ cb)) by done. by rewrite IH.
Qed.

(** C10. The disposer [subscribe(callback)] returns depends on the
    callback only.  Invoking it leaves no registration of that callback,
    however many there were; every other callback keeps all its
    registrations, in their order; nothing else in the world changes; and
    invoking it again changes nothing.  Both stores. *)
Theorem C10_disposer_removes_every_registration_of_callback :
  (forall (callback : Callback) (w : Telemetry.W),
     let w' := snd (Telemetry.disposer callback w) in
     fst (Telemetry.subscribe callback w) = Normal (Telemetry.disposer callback)
     /\ fst (Telemetry.disposer callback w) = Normal tt
     /\ registrations callback (subscribers (this w')) = 0
     /\ (forall other, other ≠ callback ->
           registrations other (subscribers (this w'))
           = registrations other (subscribers (this w)))
     /\ subscribers (this w') `sublist_of` subscribers (this w)
     /\ (data (this w'), currentData (this w'), unlisten (this w'),
         listeners w', trace w')
        = (data (this w), currentData (this w), unlisten (this w),
           listeners w, trace w)
     /\ Telemetry.disposer callback w' = (Normal tt, w'))
  /\
  (forall (callback : Callback) (w : Video.W),
     let w' := snd (Video.disposer callback w) in
     fst (Video.subscribe callback w) = Normal (Video.disposer callback)
     /\ fst (Video.disposer callback w) = Normal tt
     /\ registrations callback (Video.subscribers (this w')) = 0
     /\ (forall other, other ≠ callback ->
           registrations other (Video.subscribers (this w'))
           = registrations other (Video.subscribers (this w)))
     /\ Video.subscribers (this w') `sublist_of` Video.subscribers (this w)
     /\ (Video.currentFrame (this w'), Video.unlisten (this w'),
         listeners w', trace w')
        = (Video.currentFrame (this w), Video.unlisten (this w),
           listeners w, trace w)
     /\ Video.disposer callback w' = (Normal tt, w')).
Proof.
  split; intros callback w w'; subst w'.
  - split; [done|]. split; [done|]. simpl.
    split; [apply registrations_filter_same|].
    split; [intros other Hne; by apply registrations_filter_other|].
    split; [apply sublist_filter|]. split; [done|].
    unfold Telemetry.disposer, modify. simpl. unfold set_subscribers. simpl.
    by rewrite filter_ne_idem.
  - split; [done|]. split; [done|]. simpl.
    split; [apply registrations_filter_same|].
    split; [intros other Hne; by apply registrations_filter_other|].
    split; [apply sublist_filter|]. split; [done|].
    unfold Video.disposer, modify. simpl. unfold Video.set_subscribers. simpl.
    by rewrite filter_ne_idem.
Qed.

(** ** Construction *)

(** C4 (amended). The constructor validates nothing: for every key and
    every window size, given or defaulted to 100, zero included, it returns
    a store with that size, an empty buffer, no current record, no
    subscriber and no listener. *)
Theorem C4_constructor_accepts_every_size (k : string) (n : option Z) :
  exists s,
    Telemetry.constructor k n = Normal s
    /\ key s = k
    /\ maxPoints s = default 100%Z n
    /\ data s = [] /\ currentData s = None
    /\ subscribers s = [] /\ unlisten s = None.
Proof. eexists. split; [reflexivity|]. done. Qed.

(** C4, as stated, fails: a window size of zero is accepted. *)
Lemma C4_zero_size_is_constructed :
  Telemetry.constructor "altimeter" (Some 0%Z) = Normal (Samples.altimeter 0)
  /\ ~ exists e, Telemetry.constructor "altimeter" (Some 0%Z) = Throw e.
Proof. split; [reflexivity|]. intros [e He]. discriminate He. Qed.

(** ** Video frames of other streams *)

Lemma v_emit_overwrites (ev : Video.VideoEvent) (h : UnlistenFn) (w : Video.W) :
  listeners w = [h] ->
  Video.currentFrame (this (Video.step (Video.Emit ev) w)) = Some (Video.payload ev).
Proof.
  intros Hl. unfold Video.step. simpl.
  by rewrite (v_emit_single ev h w Hl), v_on_frame_run.
Qed.

(** C1, evaluated on the code.  A store for key "A" that was started on
    frame [a] and has one subscriber receives an event the backend emitted
    for key "B": its current frame becomes the frame of "B", and the
    subscriber is called with it. *)
Example C1_frame_of_other_key_replaces_current :
  let a := Samples.frame 1 "QQ==" in
  let b := Samples.frame 2 "Qg==" in
  let w1 := Video.run [Video.Subscribe 7; Video.Start (Normal (Some a)) Samples.resolved]
              (Video.fresh Samples.cameraA) in
  let w2 := Video.step (Video.Emit (Video.mkEvent "B" b)) w1 in
  Video.key (this w1) = "A"
  /\ fst (Video.getCurrentFrame w1) = Normal (Some a)
  /\ fst (Video.getCurrentFrame w2) = Normal (Some b)
  /\ Some b ≠ Some a
  /\ calls (trace w2) = calls (trace w1) ++ [(7, Some b)].
Proof. repeat split; try reflexivity. discriminate. Qed.

(** ** Counterexamples to the statements that fail *)


(** C5, as stated, fails: after a restart whose snapshot is empty the
    buffer is empty while [getCurrentData()] still returns the record of
    the previous run. *)
Lemma C5_empty_snapshot_keeps_previous_current :
  let r := Samples.reading 0 10 in
  let w := Telemetry.run
             [Telemetry.Start (Normal [r]) Samples.resolved; Telemetry.Stop;
              Telemetry.Start (Normal []) Samples.resolved]
             (Telemetry.fresh (Samples.altimeter 100)) in
  fst (getAllData w) = Normal []
  /\ fst (getCurrentData w) = Normal (Some r)
  /\ fst (getCurrentData w) ≠ Normal None.
Proof. repeat split; try reflexivity. discriminate. Qed.

(** ** The rolling window of the page *)

(** Starting from the empty array of [useState([])], the updater keeps the
    last [MAX_DATA_SIZE] points. *)
Lemma app_window_is_last (ps : list App.GraphData) (n : nat) :
  foldl (App.setData_updater n) [] ps = drop (length ps - n) ps.
Proof.
  induction ps as [|p ps IH] using rev_ind; [done|].
  rewrite foldl_app. simpl. rewrite IH. unfold App.setData_updater.
  rewrite !length_app, length_drop. simpl.
  case_bool_decide as Hc.
  - destruct (decide (n = 0)) as [->|Hn].
    + rewrite Nat.sub_0_r, drop_all. simpl.
      by rewrite drop_ge by (rewrite length_app; simpl; lia).
    + replace (length ps + 1 - n) with ((length ps - n) + 1) by lia.
      rewrite <- drop_drop. rewrite (drop_app_le ps) by lia.
      destruct (drop (length ps - n) ps) as [|q qs] eqn:Hd; [|done].
      apply (f_equal length) in Hd. rewrite length_drop in Hd. simpl in Hd. lia.
  - replace (length ps - n) with 0 by lia.
    replace (length ps + 1 - n) with 0 by lia. done.
Qed.

(** ** Scenarios *)

(** C3 on the scenario of the specification: capacity 3, records 1 to 5
    after a start on an empty snapshot; the window is 3, 4, 5. *)
Lemma C3_scenario_capacity_three :
  let rs := map (fun y => Samples.reading y y) [1; 2; 3; 4; 5]%Z in
  let w := Telemetry.run [Telemetry.Start (Normal []) Samples.resolved]
             (Telemetry.fresh (Samples.altimeter 3)) in
  fst (getAllData (Telemetry.run (map Telemetry.Emit rs) w))
  = Normal (map (fun y => Samples.reading y y) [3; 4; 5]%Z).
Proof.
  intros rs w.
  apply (C3_window_is_last_N 3 2 0 rs w); [lia | reflexivity | reflexivity | reflexivity].
Defined.

(** C5 (amended) on the scenario of the specification: a one-record
    snapshot followed by one event; and on a store no record has reached. *)
Lemma C5_scenario_snapshot_then_event :
  let ops := [Telemetry.Start (Normal [Samples.reading 0 10]) Samples.resolved;
              Telemetry.Emit (Samples.reading 1 12)] in
  let idle := [Telemetry.Start (Normal []) Samples.resolved; Telemetry.Stop;
               Telemetry.Refresh (Throw (Rejected "offline"))] in
  fst (getCurrentData (Telemetry.run ops (Telemetry.fresh (Samples.altimeter 3))))
  = Normal (Some (Samples.reading 1 12))
  /\ fst (getCurrentData (Telemetry.run idle (Telemetry.fresh (Samples.altimeter 3))))
     = Normal None.
Proof.
  intros ops idle. split.
  - apply (proj1 (C5_current_is_last_of_nonempty_window
                    "altimeter" (Some 3%Z) (Samples.altimeter 3) ops eq_refl)
             [Samples.reading 0 10; Samples.reading 1 12]);
      [reflexivity | discriminate].
  - apply (proj1 (proj2 (C5_current_is_last_of_nonempty_window
                    "altimeter" (Some 3%Z) (Samples.altimeter 3) idle eq_refl))).
    reflexivity.
Defined.

(** C9 on programs that stop twice in a row. *)
Lemma C9_scenario_stop_twice :
  let ops := [Telemetry.Start (Normal []) Samples.resolved; Telemetry.Stop;
              Telemetry.Stop; Telemetry.Start (Normal []) Samples.resolved;
              Telemetry.Stop] in
  let vops := [Video.Start (Normal None) Samples.resolved; Video.Stop; Video.Stop] in
  NoDup (unlistened (trace (Telemetry.run ops (Telemetry.fresh (Samples.altimeter 5)))))
  /\ NoDup (unlistened (trace (Video.run vops (Video.fresh Samples.cameraA)))).
Proof.
  intros ops vops. split.
  - apply (proj1 (proj2 (proj2 C9_stop_is_idempotent))
             "altimeter" (Some 5%Z) (Samples.altimeter 5) ops).
    reflexivity.
  - apply (proj2 (proj2 (proj2 C9_stop_is_idempotent)) "A" Samples.cameraA vops).
    reflexivity.
Defined.

(** C10 with callback 7 registered twice around callback 8: disposing 7
    leaves the one registration of 8. *)
Lemma C10_scenario_same_callback_twice :
  let w := Telemetry.run
             [Telemetry.Subscribe 7; Telemetry.Subscribe 8; Telemetry.Subscribe 7]
             (Telemetry.fresh (Samples.altimeter 5)) in
  let v := Video.run [Video.Subscribe 7; Video.Subscribe 8; Video.Subscribe 7]
             (Video.fresh Samples.cameraA) in
  registrations 8 (subscribers (this (snd (Telemetry.disposer 7 w)))) = 1
  /\ registrations 8 (Video.subscribers (this (snd (Video.disposer 7 v)))) = 1.
Proof.
  intros w v. split.
  - apply (proj1 (proj2 (proj2 (proj2
             (proj1 C10_disposer_removes_every_registration_of_callback 7 w)))) 8).
    lia.
  - apply (proj1 (proj2 (proj2 (proj2
             (proj2 C10_disposer_removes_every_registration_of_callback 7 v)))) 8).
    lia.
Defined.

(** * Further properties of the code *)

(** ** Snapshot and events in one window *)

Lemma t_run_app (ops1 ops2 : list Telemetry.Op) (w : Telemetry.W) :
  Telemetry.run (ops1 ++ ops2) w = Telemetry.run ops2 (Telemetry.run ops1 w).
Proof. revert w. induction ops1 as [|op ops1 IH]; intros w; simpl; [done|]. apply IH. Qed.

Lemma v_run_app (ops1 ops2 : list Video.Op) (w : Video.W) :
  Video.run (ops1 ++ ops2) w = Video.run ops2 (Video.run ops1 w).
Proof. revert w. induction ops1 as [|op ops1 IH]; intros w; simpl; [done|]. apply IH. Qed.

Lemma drop_tail_nonempty {A} (n : nat) (l : list A) :
  0 < n -> l ≠ [] -> drop (length l - n) l ≠ [].
Proof.
  intros Hn Hl Hd. apply (f_equal length) in Hd. rewrite length_drop in Hd.
  destruct l; simpl in *; [done|lia].
Qed.

(** X1. What a started store holds is the tail of the snapshot followed by the
    events: for a capacity [N >= 1], after [start()] on any snapshot and at
    least one event, the window is the last [N] records of
    [snapshot ++ events] and [getCurrentData()] is the last event. *)
Theorem window_is_tail_of_snapshot_and_events (k : string) (N : nat)
    (s : TelemetryStore) (snapshot rs : list TelemetryData) :
  1 <= N ->
  Telemetry.constructor k (Some (Z.of_nat N)) = Normal s ->
  rs ≠ [] ->
  let w := Telemetry.run
             (Telemetry.Start (Normal snapshot) (Normal tt) :: map Telemetry.Emit rs)
             (Telemetry.fresh s) in
  fst (getAllData w)
  = Normal (drop (length (snapshot ++ rs) - N) (snapshot ++ rs))
  /\ fst (getCurrentData w) = Normal (last rs).
Proof.
  intros HN [= <-] Hne w.
  assert (data (this w) = drop (length (snapshot ++ rs) - N) (snapshot ++ rs)) as Hd.
  { subst w. simpl. unfold Telemetry.step at 1. simpl. rewrite t_start_ok.
    by rewrite (t_emit_window N 0 rs) by (simpl; first [lia | done]). }
  assert (snapshot ++ rs ≠ []) as Hne' by (destruct snapshot, rs; done).
  split.
  - unfold getAllData, bind, get, ret. simpl. by rewrite Hd.
  - unfold getCurrentData, bind, get, ret. simpl. f_equal.
    subst w. rewrite t_run_current.
    + rewrite Hd, last_drop_nonempty by (apply drop_tail_nonempty; [lia|done]).
      rewrite last_app. by apply last_is_Some in Hne as [x ->].
    + done.
    + rewrite Hd. apply drop_tail_nonempty; [lia|done].
Qed.

(** ** The window stays within [maxPoints] *)

Lemma t_step_bound (N : nat) (op : Telemetry.Op) (w : Telemetry.W) :
  1 <= N -> fits N op = true ->
  maxPoints (this w) = Z.of_nat N /\ length (data (this w)) <= N ->
  maxPoints (this (Telemetry.step op w)) = Z.of_nat N
  /\ length (data (this (Telemetry.step op w))) <= N.
Proof.
  intros HN Hf [Hm Hl]. unfold Telemetry.step.
  destruct op as [snap att| |cb|cb|snap|d]; simpl in *.
  - destruct snap as [existing|e]; [destruct att as [[]|e]|].
    + rewrite t_start_ok. simpl. by apply bool_decide_eq_true_1 in Hf.
    + rewrite t_start_attach_rejected. simpl. by apply bool_decide_eq_true_1 in Hf.
    + rewrite t_start_rejected. done.
  - rewrite t_stop_run. simpl. by destruct (unlisten (this w)).
  - done.
  - done.
  - destruct snap as [existing|e].
    + rewrite t_refresh_ok. simpl. by apply bool_decide_eq_true_1 in Hf.
    + rewrite t_refresh_rejected. done.
  - unfold Telemetry.emit.
    apply (forEach_preserves
             (fun w : Telemetry.W =>
                maxPoints (this w) = Z.of_nat N /\ length (data (this w)) <= N));
      [|done].
    intros _ w' [Hm' Hl']. rewrite t_on_update_run. simpl. split; [done|].
    rewrite Hm', slice_last by lia. rewrite length_drop, length_app. simpl. lia.
Qed.

(** X2. The bounded-memory guarantee, as the code gives it: for a capacity
    [N >= 1], if no snapshot the backend returns is longer than [N] (the
    store does not cut snapshots itself), the buffer never holds more than
    [N] records, whatever the program does. *)
Theorem window_never_exceeds_maxPoints (k : string) (N : nat)
    (s : TelemetryStore) (ops : list Telemetry.Op) :
  1 <= N ->
  Telemetry.constructor k (Some (Z.of_nat N)) = Normal s ->
  forallb (fits N) ops = true ->
  length (data (this (Telemetry.run ops (Telemetry.fresh s)))) <= N.
Proof.
  intros HN [= <-] Hf.
  enough (forall w : Telemetry.W,
             maxPoints (this w) = Z.of_nat N /\ length (data (this w)) <= N ->
             length (data (this (Telemetry.run ops w))) <= N) as H.
  { apply H. simpl. split; [done|lia]. }
  induction ops as [|op ops IH]; intros w Hw; simpl in *; [by destruct Hw|].
  apply andb_prop in Hf as [Hf1 Hf2]. apply IH; [done|]. by apply t_step_bound.
Qed.

(** X3. With [maxPoints = 0] nothing is ever evicted: [slice(-0)] is the whole
    array, so the window is the snapshot followed by every event received
    since. *)
Theorem zero_maxPoints_never_evicts (k : string) (s : TelemetryStore)
    (snapshot rs : list TelemetryData) :
  Telemetry.constructor k (Some 0%Z) = Normal s ->
  let w := Telemetry.run
             (Telemetry.Start (Normal snapshot) (Normal tt) :: map Telemetry.Emit rs)
             (Telemetry.fresh s) in
  fst (getAllData w) = Normal (snapshot ++ rs).
Proof.
  intros [= <-] w. subst w. unfold getAllData, bind, get, ret. simpl.
  unfold Telemetry.step at 1. simpl. rewrite t_start_ok.
  by rewrite (t_emit_window_zero 0 rs).
Qed.

Lemma slice_beyond {A} (n : Z) (l : list A) :
  (Z.of_nat (length l) <= n)%Z -> slice n l = [].
Proof.
  intros Hn. unfold slice.
  destruct (n <? 0)%Z eqn:E; [lia|]. apply drop_ge. lia.
Qed.

Lemma t_emit_negative (h : UnlistenFn) (rs : list TelemetryData) :
  forall w : Telemetry.W,
    (maxPoints (this w) < 0)%Z -> listeners w = [h] -> data (this w) = [] ->
    data (this (Telemetry.run (map Telemetry.Emit rs) w)) = []
    /\ (rs ≠ [] ->
        currentData (this (Telemetry.run (map Telemetry.Emit rs) w)) = last rs).
Proof.
  induction rs as [|r rs IH]; intros w Hm Hl Hd; simpl; [done|].
  unfold Telemetry.step at 1 2. simpl.
  rewrite (t_emit_single r h w Hl), t_on_update_run. simpl.
  rewrite Hd. simpl. rewrite slice_beyond by (simpl; lia).
  match goal with |- context [Telemetry.run _ ?w0] => set (w1 := w0) end.
  destruct (IH w1) as [IH1 IH2]; try done.
  split; [done|]. intros _. destruct rs as [|r' rs]; [done|].
  rewrite IH2 by done. done.
Qed.

(** X4. With a negative [maxPoints] the cut is [slice(n)] for a positive [n]:
    it drops from the front.  A store started on an empty snapshot then
    keeps an empty window for ever, while [getCurrentData()] follows the
    events. *)
Theorem negative_maxPoints_keeps_nothing (k : string) (n : Z)
    (s : TelemetryStore) (rs : list TelemetryData) :
  (n < 0)%Z ->
  Telemetry.constructor k (Some n) = Normal s ->
  let w := Telemetry.run
             (Telemetry.Start (Normal []) (Normal tt) :: map Telemetry.Emit rs)
             (Telemetry.fresh s) in
  fst (getAllData w) = Normal []
  /\ (rs ≠ [] -> fst (getCurrentData w) = Normal (last rs)).
Proof.
  intros Hn [= <-] w.
  assert (w = Telemetry.run (map Telemetry.Emit rs)
                (snd (Telemetry.start (Normal []) (Normal tt)
                        (Telemetry.fresh (mkStore k [] None [] n None))))) as ->
    by done.
  rewrite t_start_ok. unfold getAllData, getCurrentData, bind, get, ret.
  cbn [fst snd].
  match goal with |- context [Telemetry.run _ ?w0] => set (w1 := w0) end.
  destruct (t_emit_negative 0 rs w1) as [H1 H2]; try done.
  split; [by rewrite H1|]. intros Hne. by rewrite H2.
Qed.

(** ** Fan-out *)

(** X5. Every event a store with one live listener receives is fanned out
    once: each registered subscriber is called exactly once, in
    registration order, with the window as it is after the append (the new
    frame for a video store); nobody else is called and the subscriber array
    is unchanged. *)
Theorem event_is_fanned_out_once :
  (forall (d : TelemetryData) (h : UnlistenFn) (w : Telemetry.W),
     listeners w = [h] ->
     let w' := Telemetry.step (Telemetry.Emit d) w in
     calls (trace w')
     = calls (trace w) ++ map (fun cb => (cb, data (this w'))) (subscribers (this w))
     /\ subscribers (this w') = subscribers (this w))
  /\
  (forall (ev : Video.VideoEvent) (h : UnlistenFn) (w : Video.W),
     listeners w = [h] ->
     let w' := Video.step (Video.Emit ev) w in
     calls (trace w')
     = calls (trace w)
       ++ map (fun cb => (cb, Some (Video.payload ev))) (Video.subscribers (this w))
     /\ Video.subscribers (this w') = Video.subscribers (this w)).
Proof.
  split.
  - intros d h w Hl w'. subst w'. unfold Telemetry.step. cbn [Telemetry.perform].
    rewrite (t_emit_single d h w Hl), t_on_update_run. simpl.
    by rewrite calls_app, calls_called.
  - intros ev h w Hl w'. subst w'. unfold Video.step. cbn [Video.perform].
    rewrite (v_emit_single ev h w Hl), v_on_frame_run. simpl.
    by rewrite calls_app, calls_called.
Qed.

Lemma t_forEach_update_cons (d : TelemetryData) (h : UnlistenFn)
    (hs : list UnlistenFn) (w : Telemetry.W) :
  forEach (h :: hs) (fun _ => on_update d) w
  = forEach hs (fun _ => on_update d) (snd (on_update d w)).
Proof. cbn [forEach]. unfold bind. by rewrite t_on_update_run. Qed.

Lemma t_forEach_update (N : nat) (d : TelemetryData) (hs : list UnlistenFn) :
  0 < N ->
  forall w : Telemetry.W,
    maxPoints (this w) = Z.of_nat N ->
    hs ≠ [] ->
    let w' := snd (forEach hs (fun _ => on_update d) w) in
    data (this w')
    = drop (length (data (this w) ++ replicate (length hs) d) - N)
        (data (this w) ++ replicate (length hs) d)
    /\ length (calls (trace w'))
       = length (calls (trace w)) + length hs * length (subscribers (this w)).
Proof.
  intros HN. induction hs as [|h hs IH]; intros w Hm Hne; [done|].
  cbv zeta in *. rewrite t_forEach_update_cons.
  destruct hs as [|h' hs].
  - cbn [forEach ret snd]. rewrite t_on_update_run.
    cbn [snd this data trace length replicate].
    rewrite Hm, slice_last by done. split; [done|].
    rewrite calls_app, calls_called, length_app, length_map. lia.
  - destruct (IH (snd (on_update d w))) as [IH1 IH2].
    { by rewrite t_on_update_run. }
    { done. }
    rewrite IH1, IH2. rewrite t_on_update_run.
    cbn [snd this data trace subscribers].
    rewrite Hm, slice_last by done. split.
    + rewrite drop_cut_app. rewrite <- app_assoc. done.
    + rewrite calls_app, calls_called, length_app, length_map.
      cbn [length]. lia.
Qed.

(** X6. A store with [m >= 1] live listeners (it was started [m] times without
    a stop in between) handles every event [m] times: for a capacity
    [N >= 1] the window becomes the last [N] records of the old window
    followed by [m] copies of the record, and the subscribers are called
    [m] times each. *)
Theorem event_is_handled_once_per_listener (N : nat) (d : TelemetryData)
    (w : Telemetry.W) :
  1 <= N ->
  maxPoints (this w) = Z.of_nat N ->
  listeners w ≠ [] ->
  let m := length (listeners w) in
  let w' := Telemetry.step (Telemetry.Emit d) w in
  data (this w')
  = drop (length (data (this w) ++ replicate m d) - N) (data (this w) ++ replicate m d)
  /\ length (calls (trace w'))
     = length (calls (trace w)) + m * length (subscribers (this w)).
Proof.
  intros HN Hm Hl m w'. subst m w'. unfold Telemetry.step. cbn [Telemetry.perform].
  unfold Telemetry.emit. by apply t_forEach_update.
Qed.

(** ** The newest frame *)

Lemma v_emit_frames (h : UnlistenFn) (evs : list Video.VideoEvent) :
  forall w : Video.W,
    listeners w = [h] ->
    Video.currentFrame (this (Video.run (map Video.Emit evs) w))
    = match last evs with
      | Some ev => Some (Video.payload ev)
      | None => Video.currentFrame (this w)
      end.
Proof.
  induction evs as [|ev evs IH]; intros w Hl; [done|].
  cbn [map Video.run]. unfold Video.step at 1. cbn [Video.perform].
  rewrite (v_emit_single ev h w Hl), v_on_frame_run. cbn [snd].
  rewrite IH by done. destruct evs as [|ev' evs]; [done|].
  rewrite last_cons_cons.
  destruct (last (ev' :: evs)) eqn:E; [done|]. by apply last_None in E.
Qed.

(** X7. A video store keeps only the newest frame: after [start()] has fetched
    [latest] (a frame or null) and any number of events have arrived,
    [getCurrentFrame()] is the payload of the last event, whatever stream it
    was emitted for, and [latest] when there was none. *)
Theorem video_store_holds_newest_frame (k : string) (s : Video.VideoStore)
    (latest : option Video.VideoFrameForFrontend) (evs : list Video.VideoEvent) :
  Video.constructor k = Normal s ->
  let w := Video.run (Video.Start (Normal latest) (Normal tt) :: map Video.Emit evs)
             (Video.fresh s) in
  fst (Video.getCurrentFrame w)
  = Normal (match last evs with
            | Some ev => Some (Video.payload ev)
            | None => latest
            end).
Proof.
  intros [= <-] w.
  assert (w = Video.run (map Video.Emit evs)
                (snd (Video.start (Normal latest) (Normal tt)
                        (Video.fresh (Video.mkStore k None [] None))))) as -> by done.
  rewrite v_start_ok. unfold Video.getCurrentFrame, bind, get, ret. cbn [fst snd].
  by rewrite (v_emit_frames 0).
Qed.

(** ** Which listeners are live *)

Section LedgerFacts.
Context {S V : Type} (held : S -> option UnlistenFn).

Lemma ledger_same (w w' : World S V) :
  listeners w' = listeners w -> next_id w' = next_id w ->
  unlistened (trace w') = unlistened (trace w) ->
  ledger w -> ledger w'.
Proof. unfold ledger. by intros -> -> ->. Qed.

Lemma ledger_attach (w w' : World S V) :
  listeners w' = listeners w ++ [next_id w] ->
  next_id w' = Datatypes.S (next_id w) ->
  unlistened (trace w') = unlistened (trace w) ->
  once held w -> ledger w -> ledger w'.
Proof.
  unfold ledger. intros -> -> -> (_ & Hlt & _) ->.
  rewrite seq_S, filter_app. f_equal. simpl.
  rewrite filter_cons_True; [done|].
  intros Hin. rewrite Forall_forall in Hlt. specialize (Hlt _ Hin). lia.
Qed.

Lemma ledger_release (h : UnlistenFn) (w w' : World S V) :
  listeners w' = filter (fun h' => h' ≠ h) (listeners w) ->
  next_id w' = next_id w ->
  unlistened (trace w') = unlistened (trace w) ++ [h] ->
  ledger w -> ledger w'.
Proof.
  unfold ledger. intros -> -> -> ->. rewrite list_filter_filter.
  apply list_filter_iff. intros x. rewrite elem_of_app, list_elem_of_singleton.
  tauto.
Qed.

End LedgerFacts.

Lemma t_step_ledger (op : Telemetry.Op) (w : Telemetry.W) :
  once unlisten w -> ledger w -> ledger (Telemetry.step op w).
Proof.
  intros Ho Hw. unfold Telemetry.step.
  destruct op as [snap att| |cb|cb|snap|d]; cbn [Telemetry.perform].
  - destruct snap as [existing|e]; [destruct att as [[]|e]|].
    + rewrite t_start_ok. eapply (ledger_attach unlisten w); simpl; try done.
      by trace_simpl.
    + rewrite t_start_attach_rejected. eapply ledger_same; [..|exact Hw]; simpl; try done.
      by trace_simpl.
    + rewrite t_start_rejected. eapply ledger_same; [..|exact Hw]; simpl; try done.
      by trace_simpl.
  - rewrite t_stop_run. simpl. destruct (unlisten (this w)) as [h|] eqn:Hh; [|done].
    eapply (ledger_release h w); simpl; try done. by trace_simpl.
  - eapply ledger_same; [..|exact Hw]; simpl; try done. by trace_simpl.
  - by eapply ledger_same; [..|exact Hw].
  - destruct snap as [existing|e].
    + rewrite t_refresh_ok. eapply ledger_same; [..|exact Hw]; simpl; try done.
      by trace_simpl.
    + rewrite t_refresh_rejected. eapply ledger_same; [..|exact Hw]; simpl; try done.
      by trace_simpl.
  - unfold Telemetry.emit. apply (forEach_preserves ledger); [|done].
    intros _ w' Hw'. rewrite t_on_update_run.
    eapply ledger_same; [..|exact Hw']; simpl; try done. by trace_simpl.
Qed.

Lemma v_step_ledger (op : Video.Op) (w : Video.W) :
  once Video.unlisten w -> ledger w -> ledger (Video.step op w).
Proof.
  intros Ho Hw. unfold Video.step.
  destruct op as [snap att| |cb|cb|snap|d]; cbn [Video.perform].
  - destruct snap as [f|e]; [destruct att as [[]|e]|].
    + rewrite v_start_ok. eapply (ledger_attach Video.unlisten w); simpl; try done.
      by trace_simpl.
    + rewrite v_start_attach_rejected. eapply ledger_same; [..|exact Hw]; simpl; try done.
      by trace_simpl.
    + rewrite v_start_rejected. eapply ledger_same; [..|exact Hw]; simpl; try done.
      by trace_simpl.
  - rewrite v_stop_run. simpl.
    destruct (Video.unlisten (this w)) as [h|] eqn:Hh; [|done].
    eapply (ledger_release h w); simpl; try done. by trace_simpl.
  - eapply ledger_same; [..|exact Hw]; simpl; try done. by trace_simpl.
  - by eapply ledger_same; [..|exact Hw].
  - destruct snap as [f|e].
    + rewrite v_refresh_ok. eapply ledger_same; [..|exact Hw]; simpl; try done.
      by trace_simpl.
    + rewrite v_refresh_rejected. eapply ledger_same; [..|exact Hw]; simpl; try done.
      by trace_simpl.
  - unfold Video.emit. apply (forEach_preserves ledger); [|done].
    intros _ w' Hw'. rewrite v_on_frame_run.
    eapply ledger_same; [..|exact Hw']; simpl; try done. by trace_simpl.
Qed.

Lemma t_run_ledger (ops : list Telemetry.Op) (w : Telemetry.W) :
  once unlisten w -> ledger w -> ledger (Telemetry.run ops w).
Proof.
  revert w. induction ops as [|op ops IH]; intros w Ho Hw; simpl; [done|].
  apply IH; [by apply t_step_once | by apply t_step_ledger].
Qed.

Lemma v_run_ledger (ops : list Video.Op) (w : Video.W) :
  once Video.unlisten w -> ledger w -> ledger (Video.run ops w).
Proof.
  revert w. induction ops as [|op ops IH]; intros w Ho Hw; simpl; [done|].
  apply IH; [by apply v_step_once | by apply v_step_ledger].
Qed.

Lemma t_step_next_id (op : Telemetry.Op) (w : Telemetry.W) :
  next_id (Telemetry.step op w) = next_id w + (if t_attaches op then 1 else 0).
Proof.
  unfold Telemetry.step.
  destruct op as [snap att| |cb|cb|snap|d]; cbn [Telemetry.perform t_attaches].
  - destruct snap as [existing|e]; [destruct att as [[]|e]|].
    + rewrite t_start_ok. simpl. lia.
    + rewrite t_start_attach_rejected. simpl. lia.
    + rewrite t_start_rejected. simpl. lia.
  - rewrite t_stop_run. simpl. destruct (unlisten (this w)); simpl; lia.
  - simpl. lia.
  - simpl. lia.
  - destruct snap as [existing|e].
    + rewrite t_refresh_ok. simpl. lia.
    + rewrite t_refresh_rejected. simpl. lia.
  - unfold Telemetry.emit. rewrite Nat.add_0_r.
    apply (forEach_preserves (fun w' : Telemetry.W => next_id w' = next_id w));
      [|done].
    intros _ w' Hw'. by rewrite t_on_update_run.
Qed.

Lemma v_step_next_id (op : Video.Op) (w : Video.W) :
  next_id (Video.step op w) = next_id w + (if v_attaches op then 1 else 0).
Proof.
  unfold Video.step.
  destruct op as [snap att| |cb|cb|snap|d]; cbn [Video.perform v_attaches].
  - destruct snap as [f|e]; [destruct att as [[]|e]|].
    + rewrite v_start_ok. simpl. lia.
    + rewrite v_start_attach_rejected. simpl. lia.
    + rewrite v_start_rejected. simpl. lia.
  - rewrite v_stop_run. simpl. destruct (Video.unlisten (this w)); simpl; lia.
  - simpl. lia.
  - simpl. lia.
  - destruct snap as [f|e].
    + rewrite v_refresh_ok. simpl. lia.
    + rewrite v_refresh_rejected. simpl. lia.
  - unfold Video.emit. rewrite Nat.add_0_r.
    apply (forEach_preserves (fun w' : Video.W => next_id w' = next_id w));
      [|done].
    intros _ w' Hw'. by rewrite v_on_frame_run.
Qed.

Lemma t_run_next_id (ops : list Telemetry.Op) (w : Telemetry.W) :
  next_id (Telemetry.run ops w) = next_id w + length (filter t_attaches ops).
Proof.
  revert w. induction ops as [|op ops IH]; intros w; simpl; [lia|].
  rewrite IH, t_step_next_id. rewrite filter_cons.
  destruct (decide (t_attaches op)) as [Ht|Ht].
  - apply Is_true_true_1 in Ht. rewrite Ht. simpl. lia.
  - apply Is_true_false_1 in Ht. rewrite Ht. simpl. lia.
Qed.

Lemma v_run_next_id (ops : list Video.Op) (w : Video.W) :
  next_id (Video.run ops w) = next_id w + length (filter v_attaches ops).
Proof.
  revert w. induction ops as [|op ops IH]; intros w; simpl; [lia|].
  rewrite IH, v_step_next_id. rewrite filter_cons.
  destruct (decide (v_attaches op)) as [Ht|Ht].
  - apply Is_true_true_1 in Ht. rewrite Ht. simpl. lia.
  - apply Is_true_false_1 in Ht. rewrite Ht. simpl. lia.
Qed.

(** ** After [stop()] *)

Lemma t_emit_no_listener (d : TelemetryData) (w : Telemetry.W) :
  listeners w = [] -> Telemetry.step (Telemetry.Emit d) w = w.
Proof.
  intros Hl. unfold Telemetry.step. cbn [Telemetry.perform].
  unfold Telemetry.emit. by rewrite Hl.
Qed.

Lemma v_emit_no_listener (ev : Video.VideoEvent) (w : Video.W) :
  listeners w = [] -> Video.step (Video.Emit ev) w = w.
Proof.
  intros Hl. unfold Video.step. cbn [Video.perform].
  unfold Video.emit. by rewrite Hl.
Qed.

(** ** [refresh()] *)

(** X10. [refresh()] never touches the subscription: the live listeners, the
    stored unlisten function and the subscribers are the same afterwards,
    whether the request succeeds or not.  When it is rejected the error is
    thrown, the store object is unchanged and no subscriber is called; when
    it succeeds the buffer (the current frame) is replaced by the answer and
    every subscriber is called once with it, a null frame included. *)
Theorem refresh_leaves_subscription_alone :
  (forall (reply : Completion (list TelemetryData)) (w : Telemetry.W),
     let r := Telemetry.refresh reply w in
     (listeners (snd r), next_id (snd r), unlisten (this (snd r)),
      subscribers (this (snd r)))
     = (listeners w, next_id w, unlisten (this w), subscribers (this w))
     /\ match reply with
        | Throw e =>
            fst r = Throw e /\ this (snd r) = this w
            /\ calls (trace (snd r)) = calls (trace w)
        | Normal d =>
            fst r = Normal tt /\ data (this (snd r)) = d
            /\ calls (trace (snd r))
               = calls (trace w) ++ map (fun cb => (cb, d)) (subscribers (this w))
        end)
  /\
  (forall (reply : Completion (option Video.VideoFrameForFrontend)) (w : Video.W),
     let r := Video.refresh reply w in
     (listeners (snd r), next_id (snd r), Video.unlisten (this (snd r)),
      Video.subscribers (this (snd r)))
     = (listeners w, next_id w, Video.unlisten (this w), Video.subscribers (this w))
     /\ match reply with
        | Throw e =>
            fst r = Throw e /\ this (snd r) = this w
            /\ calls (trace (snd r)) = calls (trace w)
        | Normal f =>
            fst r = Normal tt /\ Video.currentFrame (this (snd r)) = f
            /\ calls (trace (snd r))
               = calls (trace w) ++ map (fun cb => (cb, f)) (Video.subscribers (this w))
        end).
Proof.
  split.
  - intros [d|e] w r; subst r.
    + rewrite t_refresh_ok. cbn [fst snd this listeners next_id trace].
      split; [done|]. split; [done|]. split; [done|]. by calls_simpl.
    + rewrite t_refresh_rejected. cbn [fst snd this listeners next_id trace].
      split; [done|]. split; [done|]. split; [done|]. by calls_simpl.
  - intros [f|e] w r; subst r.
    + rewrite v_refresh_ok. cbn [fst snd this listeners next_id trace].
      split; [done|]. split; [done|]. split; [done|]. by calls_simpl.
    + rewrite v_refresh_rejected. cbn [fst snd this listeners next_id trace].
      split; [done|]. split; [done|]. split; [done|]. by calls_simpl.
Qed.

(** ** A [start()] whose listener registration fails *)

(** X11. When the snapshot arrives but the listener registration is rejected,
    [start()] throws that error after the fact: the buffer (the current
    frame) has already been replaced and every subscriber already called
    with it, while no listener was added and the stored unlisten function is
    the old one.  On a store without listener, events keep being missed. *)
Theorem failed_attach_leaves_store_seeded :
  (forall (existing : list TelemetryData) (e : JsError) (w : Telemetry.W),
     let r := Telemetry.start (Normal existing) (Throw e) w in
     fst r = Throw e
     /\ data (this (snd r)) = existing
     /\ calls (trace (snd r))
        = calls (trace w) ++ map (fun cb => (cb, existing)) (subscribers (this w))
     /\ (listeners (snd r), next_id (snd r), unlisten (this (snd r)))
        = (listeners w, next_id w, unlisten (this w))
     /\ (listeners w = [] ->
         forall d, Telemetry.step (Telemetry.Emit d) (snd r) = snd r))
  /\
  (forall (f : option Video.VideoFrameForFrontend) (e : JsError) (w : Video.W),
     let r := Video.start (Normal f) (Throw e) w in
     fst r = Throw e
     /\ Video.currentFrame (this (snd r)) = f
     /\ calls (trace (snd r))
        = calls (trace w) ++ map (fun cb => (cb, f)) (Video.subscribers (this w))
     /\ (listeners (snd r), next_id (snd r), Video.unlisten (this (snd r)))
        = (listeners w, next_id w, Video.unlisten (this w))
     /\ (listeners w = [] ->
         forall ev, Video.step (Video.Emit ev) (snd r) = snd r)).
Proof.
  split.
  - intros existing e w r. subst r. rewrite t_start_attach_rejected.
    cbn [fst snd this listeners next_id trace].
    split; [done|]. split; [done|]. split; [by calls_simpl|]. split; [done|].
    intros Hl d. by apply t_emit_no_listener.
  - intros f e w r. subst r. rewrite v_start_attach_rejected.
    cbn [fst snd this listeners next_id trace].
    split; [done|]. split; [done|]. split; [by calls_simpl|]. split; [done|].
    intros Hl ev. by apply v_emit_no_listener.
Qed.

(** ** Unsubscribing *)

Lemma calls_to_app {V} (cb : Callback) (t1 t2 : list (Effect V)) :
  calls_to cb (t1 ++ t2) = calls_to cb t1 + calls_to cb t2.
Proof. unfold calls_to. by rewrite calls_app, filter_app, length_app. Qed.

Lemma calls_to_absent {V} (cb : Callback) (v : V) (l : list Callback) :
  cb ∉ l -> calls_to cb (map (fun c => Called c v) l) = 0.
Proof.
  unfold calls_to. rewrite calls_called. induction l as [|c l IH]; [done|].
  intros Hn. apply not_elem_of_cons in Hn as [Hne Hn]. simpl.
  rewrite filter_cons_False by (simpl; congruence). by apply IH.
Qed.

Lemma calls_to_other {V} (cb c : Callback) (v : V) :
  c ≠ cb -> calls_to cb [Called c v] = 0.
Proof. intros Hne. unfold calls_to. simpl. by rewrite filter_cons_False. Qed.

Ltac calls_to_simpl :=
  repeat (progress (rewrite ?calls_to_app, ?calls_to_absent, ?calls_to_other by done));
  cbn [calls_to calls filter length]; rewrite ?Nat.add_0_r.

Lemma filter_ne_snoc (cb : Callback) (l : list Callback) :
  cb ∉ l -> filter (fun c => c ≠ cb) (l ++ [cb]) = l.
Proof.
  intros Hn. rewrite filter_app.
  rewrite (filter_cons_False _ cb) by (intros H; by apply H).
  rewrite filter_nil, app_nil_r.
  induction l as [|c l IH]; [done|].
  apply not_elem_of_cons in Hn as [Hne Hn].
  rewrite filter_cons_True by done. by rewrite IH.
Qed.

Lemma t_step_unsubscribed (cb : Callback) (op : Telemetry.Op) (w : Telemetry.W) :
  t_subscribes cb op = false ->
  cb ∉ subscribers (this w) ->
  (cb ∉ subscribers (this (Telemetry.step op w)))
  /\ calls_to cb (trace (Telemetry.step op w)) = calls_to cb (trace w).
Proof.
  intros Hop Hn. unfold Telemetry.step.
  destruct op as [snap att| |c|c|snap|d]; cbn [Telemetry.perform].
  - destruct snap as [existing|e]; [destruct att as [[]|e]|].
    + rewrite t_start_ok. cbn [snd this trace]. split; [done|]. by calls_to_simpl.
    + rewrite t_start_attach_rejected. cbn [snd this trace]. split; [done|].
      by calls_to_simpl.
    + rewrite t_start_rejected. cbn [snd this trace]. split; [done|].
      by calls_to_simpl.
  - rewrite t_stop_run. cbn [snd]. destruct (unlisten (this w)); [|done].
    cbn [this trace]. split; [done|]. by calls_to_simpl.
  - simpl in Hop. apply bool_decide_eq_false_1 in Hop.
    unfold bind. rewrite t_subscribe_run. cbn [snd this trace ret].
    split.
    + simpl. rewrite elem_of_app, list_elem_of_singleton. intros [?|?]; congruence.
    + by calls_to_simpl.
  - rewrite t_disposer_run. cbn [snd this trace]. split; [|done].
    simpl. rewrite list_elem_of_filter. tauto.
  - destruct snap as [existing|e].
    + rewrite t_refresh_ok. cbn [snd this trace]. split; [done|]. by calls_to_simpl.
    + rewrite t_refresh_rejected. cbn [snd this trace]. split; [done|].
      by calls_to_simpl.
  - unfold Telemetry.emit.
    apply (forEach_preserves
             (fun w' : Telemetry.W =>
                (cb ∉ subscribers (this w'))
                /\ calls_to cb (trace w') = calls_to cb (trace w)));
      [|done].
    intros _ w' [Hn' Hc']. rewrite t_on_update_run. cbn [snd this trace].
    split; [done|]. rewrite <- Hc'. by calls_to_simpl.
Qed.

Lemma v_step_unsubscribed (cb : Callback) (op : Video.Op) (w : Video.W) :
  v_subscribes cb op = false ->
  cb ∉ Video.subscribers (this w) ->
  (cb ∉ Video.subscribers (this (Video.step op w)))
  /\ calls_to cb (trace (Video.step op w)) = calls_to cb (trace w).
Proof.
  intros Hop Hn. unfold Video.step.
  destruct op as [snap att| |c|c|snap|d]; cbn [Video.perform].
  - destruct snap as [f|e]; [destruct att as [[]|e]|].
    + rewrite v_start_ok. cbn [snd this trace]. split; [done|]. by calls_to_simpl.
    + rewrite v_start_attach_rejected. cbn [snd this trace]. split; [done|].
      by calls_to_simpl.
    + rewrite v_start_rejected. cbn [snd this trace]. split; [done|].
      by calls_to_simpl.
  - rewrite v_stop_run. cbn [snd]. destruct (Video.unlisten (this w)); [|done].
    cbn [this trace]. split; [done|]. by calls_to_simpl.
  - simpl in Hop. apply bool_decide_eq_false_1 in Hop.
    unfold bind. rewrite v_subscribe_run. cbn [snd this trace ret].
    split.
    + simpl. rewrite elem_of_app, list_elem_of_singleton. intros [?|?]; congruence.
    + by calls_to_simpl.
  - unfold Video.disposer, modify. cbn [snd this trace]. split; [|done].
    simpl. rewrite list_elem_of_filter. tauto.
  - destruct snap as [f|e].
    + rewrite v_refresh_ok. cbn [snd this trace]. split; [done|]. by calls_to_simpl.
    + rewrite v_refresh_rejected. cbn [snd this trace]. split; [done|].
      by calls_to_simpl.
  - unfold Video.emit.
    apply (forEach_preserves
             (fun w' : Video.W =>
                (cb ∉ Video.subscribers (this w'))
                /\ calls_to cb (trace w') = calls_to cb (trace w)));
      [|done].
    intros _ w' [Hn' Hc']. rewrite v_on_frame_run. cbn [snd this trace].
    split; [done|]. rewrite <- Hc'. by calls_to_simpl.
Qed.

(** X12. Unsubscribing works: once the disposer of a callback has been invoked,
    that callback is never called again, whatever the store goes through
    (starts, stops, refreshes, events, other subscriptions), until the same
    callback is subscribed anew.  Both stores. *)
Theorem disposed_callback_is_never_called :
  (forall (cb : Callback) (w : Telemetry.W) (ops : list Telemetry.Op),
     forallb (fun op => negb (t_subscribes cb op)) ops = true ->
     let w0 := snd (Telemetry.disposer cb w) in
     calls_to cb (trace (Telemetry.run ops w0)) = calls_to cb (trace w))
  /\
  (forall (cb : Callback) (w : Video.W) (ops : list Video.Op),
     forallb (fun op => negb (v_subscribes cb op)) ops = true ->
     let w0 := snd (Video.disposer cb w) in
     calls_to cb (trace (Video.run ops w0)) = calls_to cb (trace w)).
Proof.
  split.
  - intros cb w ops Hops w0.
    assert (cb ∉ subscribers (this w0)) as Hn.
    { subst w0. simpl. rewrite list_elem_of_filter. tauto. }
    change (trace w) with (trace w0). clearbody w0. clear w.
    revert w0 Hn. induction ops as [|op ops IH]; intros w Hn; simpl in *; [done|].
    apply andb_prop in Hops as [H1 H2]. apply negb_true_iff in H1.
    destruct (t_step_unsubscribed cb op w H1 Hn) as [Hn' Hc'].
    rewrite IH by done. done.
  - intros cb w ops Hops w0.
    assert (cb ∉ Video.subscribers (this w0)) as Hn.
    { subst w0. simpl. rewrite list_elem_of_filter. tauto. }
    change (trace w) with (trace w0). clearbody w0. clear w.
    revert w0 Hn. induction ops as [|op ops IH]; intros w Hn; simpl in *; [done|].
    apply andb_prop in Hops as [H1 H2]. apply negb_true_iff in H1.
    destruct (v_step_unsubscribed cb op w H1 Hn) as [Hn' Hc'].
    rewrite IH by done. done.
Qed.

(** X13. Subscribing a callback that is not registered yet and then invoking
    the disposer [subscribe] returned puts the subscriber array back as it
    was.  Both stores. *)
Theorem subscribe_then_dispose_restores_subscribers :
  (forall (cb : Callback) (w : Telemetry.W),
     cb ∉ subscribers (this w) ->
     exists dispose w1,
       Telemetry.subscribe cb w = (Normal dispose, w1)
       /\ subscribers (this (snd (dispose w1))) = subscribers (this w))
  /\
  (forall (cb : Callback) (w : Video.W),
     cb ∉ Video.subscribers (this w) ->
     exists dispose w1,
       Video.subscribe cb w = (Normal dispose, w1)
       /\ Video.subscribers (this (snd (dispose w1))) = Video.subscribers (this w)).
Proof.
  split; intros cb w Hn.
  - eexists _, _. split; [apply t_subscribe_run|]. simpl. by apply filter_ne_snoc.
  - eexists _, _. split; [apply v_subscribe_run|]. simpl. by apply filter_ne_snoc.
Qed.

(** ** Helper functions *)

Lemma string_app_inj (p s1 s2 : string) : p +:+ s1 = p +:+ s2 -> s1 = s2.
Proof. induction p as [|a p IH]; simpl; [done|]. intros [= H]. by apply IH. Qed.

(** X14. [videoFrameToImageUrl] returns the empty string exactly for the formats
    other than "jpeg", "jpg" and "png" (compared literally), and exactly
    then it writes a warning; for the three formats the URL is a data URL
    from which the base64 text can be read back: two frames of the same such
    format have the same URL only if they carry the same text. *)
Theorem image_url_is_empty_only_for_other_formats
    (frame : Video.VideoFrameForFrontend) :
  let displayable := fun fmt : string => fmt = "jpeg" \/ fmt = "jpg" \/ fmt = "png" in
  let r := Helpers.videoFrameToImageUrl frame in
  (r.1 = EmptyString <-> ~ displayable (Video.format frame))
  /\ (r.2 = [] <-> displayable (Video.format frame))
  /\ (forall frame',
        displayable (Video.format frame) ->
        Video.format frame' = Video.format frame ->
        (Helpers.videoFrameToImageUrl frame').1 = r.1 ->
        Video.data_base64 frame' = Video.data_base64 frame).
Proof.
  intros displayable r. subst r displayable. unfold Helpers.videoFrameToImageUrl.
  cbv beta. split; [|split].
  - repeat case_bool_decide; simpl; split; try done; try tauto.
    all: intros; exfalso; tauto.
  - repeat case_bool_decide; simpl; split; try done; try tauto.
    all: intros; exfalso; tauto.
  - intros frame' Hd Hf. rewrite Hf.
    repeat case_bool_decide; cbn [fst]; try (exfalso; tauto).
    all: intros Hurl; by apply string_app_inj in Hurl.
Qed.

(** X15. The typed accessors never fail and never convert: a missing field, or
    a field of another type, gives the default (0 and the empty string when
    none is given); no field makes both accessors return a stored value; a
    boolean field gives both defaults. *)
Theorem typed_accessors_fall_back_to_default (data : TelemetryData)
    (field : string) (dn : option Z) (ds : option string) :
  (Helpers.getFieldValue data field = None ->
   Helpers.getNumericField data field dn = default 0%Z dn
   /\ Helpers.getStringField data field ds = default EmptyString ds)
  /\ (Helpers.getNumericField data field dn ≠ default 0%Z dn ->
      Helpers.getStringField data field ds = default EmptyString ds)
  /\ (Helpers.getStringField data field ds ≠ default EmptyString ds ->
      Helpers.getNumericField data field dn = default 0%Z dn)
  /\ (forall b, Helpers.getFieldValue data field = Some (FBoolean b) ->
      Helpers.getNumericField data field dn = default 0%Z dn
      /\ Helpers.getStringField data field ds = default EmptyString ds).
Proof.
  unfold Helpers.getFieldValue, Helpers.getNumericField, Helpers.getStringField.
  destruct (fields data !! field) as [[z|v|b]|]; simpl; repeat split; done.
Qed.

(** X16. Writing a field and reading it back: on the record
    [createTelemetryData] builds from a field bag in which [field] was set
    to a number (a string), the numeric (string) accessor returns that value
    whatever the default, the other accessor returns its default, and every
    other field reads as it did before the write. *)
Theorem accessors_read_back_written_field (now : Z)
    (m : gmap string FieldValue) (field : string) (z : Z) (v : string)
    (dn : option Z) (ds : option string) :
  let num := Helpers.createTelemetryData now (<[field := FNumber z]> m) in
  let str := Helpers.createTelemetryData now (<[field := FString v]> m) in
  let old := Helpers.createTelemetryData now m in
  Helpers.getNumericField num field dn = z
  /\ Helpers.getStringField num field ds = default EmptyString ds
  /\ Helpers.getStringField str field ds = v
  /\ Helpers.getNumericField str field dn = default 0%Z dn
  /\ (forall other, other ≠ field ->
        Helpers.getNumericField num other dn = Helpers.getNumericField old other dn
        /\ Helpers.getStringField str other ds = Helpers.getStringField old other ds
        /\ Helpers.getFieldValue num other = Helpers.getFieldValue old other).
Proof.
  intros num str old. subst num str old.
  unfold Helpers.getFieldValue, Helpers.getNumericField, Helpers.getStringField,
    Helpers.createTelemetryData.
  cbn [fields]. rewrite !lookup_insert_eq. repeat (split; [done|]).
  intros other Hne. by rewrite !lookup_insert_ne by done.
Qed.

(** X17. The page's rolling window: starting from the empty array, after any
    number of points the array holds the last [MAX_DATA_SIZE] of them in
    arrival order, so it never exceeds [MAX_DATA_SIZE]; an array that is
    already longer is shifted once per point and keeps its length. *)
Theorem app_rolling_window (n : nat) (ps : list App.GraphData) :
  foldl (App.setData_updater n) [] ps = drop (length ps - n) ps
  /\ length (foldl (App.setData_updater n) [] ps) = length ps `min` n
  /\ (forall curr p, n < length curr ->
        length (App.setData_updater n curr p) = length curr).
Proof.
  split; [apply app_window_is_last|]. split.
  - rewrite app_window_is_last, length_drop. lia.
  - intros curr p Hn. unfold App.setData_updater.
    rewrite bool_decide_eq_true_2 by (rewrite length_app; simpl; lia).
    destruct curr as [|c curr]; simpl in *; [lia|].
    rewrite length_app. simpl. lia.
Qed.

(** ** Scenarios for the further properties *)

(** The scenario of the specification: snapshot of one record, then one
    event, in a store of capacity 5. *)
Lemma scenario_snapshot_then_one_event :
  let w := Telemetry.run
             [Telemetry.Start (Normal [Samples.reading 0 10]) (Normal tt);
              Telemetry.Emit (Samples.reading 1 12)]
             (Telemetry.fresh (Samples.altimeter 5)) in
  fst (getAllData w) = Normal [Samples.reading 0 10; Samples.reading 1 12]
  /\ fst (getCurrentData w) = Normal (Some (Samples.reading 1 12)).
Proof.
  apply (window_is_tail_of_snapshot_and_events "altimeter" 5 (Samples.altimeter 5)
           [Samples.reading 0 10] [Samples.reading 1 12]);
    [lia | reflexivity | discriminate].
Defined.

(** Capacity 2, snapshots of at most two records, three events. *)
Lemma scenario_capacity_two_stays_bounded :
  length (data (this (Telemetry.run
            [Telemetry.Start (Normal [Samples.reading 0 1; Samples.reading 1 2]) (Normal tt);
             Telemetry.Emit (Samples.reading 2 3); Telemetry.Emit (Samples.reading 3 4);
             Telemetry.Refresh (Normal [Samples.reading 3 4]);
             Telemetry.Emit (Samples.reading 4 5)]
            (Telemetry.fresh (Samples.altimeter 2))))) <= 2.
Proof.
  apply (window_never_exceeds_maxPoints "altimeter" 2 (Samples.altimeter 2));
    [lia | reflexivity | reflexivity].
Defined.

Lemma scenario_zero_capacity_grows :
  fst (getAllData (Telemetry.run
         (Telemetry.Start (Normal [Samples.reading 0 1]) (Normal tt)
          :: map Telemetry.Emit [Samples.reading 1 2; Samples.reading 2 3])
         (Telemetry.fresh (Samples.altimeter 0))))
  = Normal [Samples.reading 0 1; Samples.reading 1 2; Samples.reading 2 3].
Proof.
  apply (zero_maxPoints_never_evicts "altimeter" (Samples.altimeter 0)
           [Samples.reading 0 1] [Samples.reading 1 2; Samples.reading 2 3]).
  reflexivity.
Defined.

Lemma scenario_negative_capacity :
  let w := Telemetry.run
             (Telemetry.Start (Normal []) (Normal tt)
              :: map Telemetry.Emit [Samples.reading 1 2; Samples.reading 2 3])
             (Telemetry.fresh (Samples.altimeter (-1))) in
  fst (getAllData w) = Normal []
  /\ fst (getCurrentData w) = Normal (Some (Samples.reading 2 3)).
Proof.
  intros w.
  destruct (negative_maxPoints_keeps_nothing "altimeter" (-1) (Samples.altimeter (-1))
              [Samples.reading 1 2; Samples.reading 2 3]) as [H1 H2];
    [lia | reflexivity |].
  split; [exact H1 | apply H2; discriminate].
Defined.

Lemma scenario_fan_out_to_two_subscribers :
  let w := Telemetry.run
             [Telemetry.Subscribe 7; Telemetry.Subscribe 8;
              Telemetry.Start (Normal []) (Normal tt)]
             (Telemetry.fresh (Samples.altimeter 5)) in
  let v := Video.run
             [Video.Subscribe 7; Video.Start (Normal None) (Normal tt)]
             (Video.fresh Samples.cameraA) in
  subscribers (this (Telemetry.step (Telemetry.Emit (Samples.reading 1 2)) w))
  = subscribers (this w)
  /\ Video.subscribers
       (this (Video.step (Video.Emit (Video.mkEvent "A" (Samples.frame 1 "QQ=="))) v))
     = Video.subscribers (this v).
Proof.
  intros w v. split.
  - apply (proj1 event_is_fanned_out_once (Samples.reading 1 2) 0 w). reflexivity.
  - apply (proj2 event_is_fanned_out_once
             (Video.mkEvent "A" (Samples.frame 1 "QQ==")) 0 v).
    reflexivity.
Defined.

(** A store started twice appends every event twice. *)
Lemma scenario_event_after_double_start :
  let again := Telemetry.Start (Normal []) (Normal tt) in
  let w := Telemetry.run [again; again] (Telemetry.fresh (Samples.altimeter 5)) in
  data (this (Telemetry.step (Telemetry.Emit (Samples.reading 1 2)) w))
  = [Samples.reading 1 2; Samples.reading 1 2].
Proof.
  intros again w.
  apply (proj1 (event_is_handled_once_per_listener 5 (Samples.reading 1 2) w
                  ltac:(lia) eq_refl ltac:(discriminate))).
Defined.

Lemma scenario_newest_frame :
  fst (Video.getCurrentFrame
         (Video.run
            (Video.Start (Normal (Some (Samples.frame 1 "QQ=="))) (Normal tt)
             :: map Video.Emit
                  [Video.mkEvent "A" (Samples.frame 2 "Qg==");
                   Video.mkEvent "B" (Samples.frame 3 "Qw==")])
            (Video.fresh Samples.cameraA)))
  = Normal (Some (Samples.frame 3 "Qw==")).
Proof.
  apply (video_store_holds_newest_frame "A" Samples.cameraA
           (Some (Samples.frame 1 "QQ=="))
           [Video.mkEvent "A" (Samples.frame 2 "Qg==");
            Video.mkEvent "B" (Samples.frame 3 "Qw==")]).
  reflexivity.
Defined.

Lemma scenario_failed_attach_then_event :
  let r := Telemetry.start (Normal [Samples.reading 0 1]) (Throw (Rejected "no channel"))
             (Telemetry.fresh (Samples.altimeter 5)) in
  let rv := Video.start (Normal None) (Throw (Rejected "no channel"))
              (Video.fresh Samples.cameraA) in
  Telemetry.step (Telemetry.Emit (Samples.reading 1 2)) (snd r) = snd r
  /\ Video.step (Video.Emit (Video.mkEvent "A" (Samples.frame 1 "QQ=="))) (snd rv)
     = snd rv.
Proof.
  intros r rv. split.
  - apply (proj2 (proj2 (proj2 (proj2
             (proj1 failed_attach_leaves_store_seeded [Samples.reading 0 1]
                (Rejected "no channel") (Telemetry.fresh (Samples.altimeter 5))))))).
    reflexivity.
  - apply (proj2 (proj2 (proj2 (proj2
             (proj2 failed_attach_leaves_store_seeded None
                (Rejected "no channel") (Video.fresh Samples.cameraA)))))).
    reflexivity.
Defined.

Lemma scenario_disposed_callback :
  let w := Telemetry.run [Telemetry.Subscribe 7; Telemetry.Subscribe 8]
             (Telemetry.fresh (Samples.altimeter 5)) in
  let ops := [Telemetry.Start (Normal [Samples.reading 0 1]) (Normal tt);
              Telemetry.Emit (Samples.reading 1 2); Telemetry.Subscribe 9;
              Telemetry.Refresh (Normal [])] in
  let v := Video.run [Video.Subscribe 7] (Video.fresh Samples.cameraA) in
  let vops := [Video.Start (Normal None) (Normal tt);
               Video.Emit (Video.mkEvent "A" (Samples.frame 1 "QQ=="))] in
  calls_to 7 (trace (Telemetry.run ops (snd (Telemetry.disposer 7 w))))
  = calls_to 7 (trace w)
  /\ calls_to 7 (trace (Video.run vops (snd (Video.disposer 7 v))))
     = calls_to 7 (trace v).
Proof.
  intros w ops v vops. split.
  - apply (proj1 disposed_callback_is_never_called 7 w ops). reflexivity.
  - apply (proj2 disposed_callback_is_never_called 7 v vops). reflexivity.
Defined.

Lemma scenario_subscribe_then_dispose :
  (exists dispose w1,
     Telemetry.subscribe 7 (Telemetry.fresh (Samples.altimeter 5)) = (Normal dispose, w1)
     /\ subscribers (this (snd (dispose w1))) = [])
  /\ (exists dispose w1,
        Video.subscribe 7 (Video.fresh Samples.cameraA) = (Normal dispose, w1)
        /\ Video.subscribers (this (snd (dispose w1))) = []).
Proof.
  split.
  - apply (proj1 subscribe_then_dispose_restores_subscribers 7
             (Telemetry.fresh (Samples.altimeter 5))).
    apply not_elem_of_nil.
  - apply (proj2 subscribe_then_dispose_restores_subscribers 7
             (Video.fresh Samples.cameraA)).
    apply not_elem_of_nil.
Defined.

Lemma scenario_same_url_same_payload :
  Video.data_base64 (Samples.frame 2 "QQ==") = Video.data_base64 (Samples.frame 1 "QQ==").
Proof.
  apply (proj2 (proj2 (image_url_is_empty_only_for_other_formats
                         (Samples.frame 1 "QQ=="))) (Samples.frame 2 "QQ==")).
  - left. reflexivity.
  - reflexivity.
  - reflexivity.
Defined.

Lemma scenario_typed_accessors :
  let d := Samples.reading 0 10 in
  (Helpers.getNumericField d "pressure" None = 0%Z
   /\ Helpers.getStringField d "pressure" None = EmptyString)
  /\ Helpers.getStringField d "alt" (Some "n/a") = "n/a".
Proof.
  intros d. split.
  - apply (proj1 (typed_accessors_fall_back_to_default d "pressure" None None)).
    reflexivity.
  - apply (proj1 (proj2 (typed_accessors_fall_back_to_default d "alt" None (Some "n/a")))).
    vm_compute. discriminate.
Defined.

Lemma scenario_write_then_read_other_field :
  Helpers.getFieldValue
    (Helpers.createTelemetryData 0 (<["alt" := FNumber 12]> {[ "state" := FString "boost" ]}))
    "state"
  = Helpers.getFieldValue
      (Helpers.createTelemetryData 0 {[ "state" := FString "boost" ]}) "state".
Proof.
  apply (proj2 (proj2 (proj2 (proj2
           (accessors_read_back_written_field 0 {[ "state" := FString "boost" ]}
              "alt" 12 "x" None None)))) "state").
  discriminate.
Defined.

Lemma scenario_oversized_array_keeps_length :
  length (App.setData_updater 2
            [App.mkPoint 0 0; App.mkPoint 1 1; App.mkPoint 2 2] (App.mkPoint 3 3))
  = 3.
Proof.
  apply (proj2 (proj2 (app_rolling_window 2 []))
           [App.mkPoint 0 0; App.mkPoint 1 1; App.mkPoint 2 2] (App.mkPoint 3 3)).
  simpl. lia.
Defined.

(** * [start()] cut at its awaits *)

Arguments Telemetry.start_call : simpl never.
Arguments Telemetry.start_seed : simpl never.
Arguments Telemetry.start_attach : simpl never.
Arguments Video.start_call : simpl never.
Arguments Video.start_seed : simpl never.
Arguments Video.start_attach : simpl never.

Lemma t_start_call_run (w : Telemetry.W) :
  Telemetry.start_call w
  = (Normal tt,
     mkWorld (this w) (listeners w) (next_id w)
       (trace w ++ [Invoked "get_telemetry" (key (this w))])).
Proof. reflexivity. Qed.

Lemma t_start_seed_run (existing : list TelemetryData) (w : Telemetry.W) :
  Telemetry.start_seed existing w
  = (Normal tt,
     mkWorld (seeded existing (this w)) (listeners w) (next_id w)
       (trace w ++ map (fun cb => Called cb existing) (subscribers (this w)))).
Proof.
  unfold Telemetry.start_seed, bind, modify, ret, seeded. simpl.
  destruct (bool_decide (0 < length existing)); simpl; by rewrite t_notify_run.
Qed.

Lemma t_start_attach_run (attach : Completion unit) (w : Telemetry.W) :
  Telemetry.start_attach attach w
  = match attach with
    | Normal _ =>
        (Normal tt,
         mkWorld (set_unlisten (Some (next_id w)) (this w))
           (listeners w ++ [next_id w]) (Datatypes.S (next_id w))
           (trace w ++ [Listened "telemetry-update" (next_id w)]))
    | Throw e => (Throw e, w)
    end.
Proof. by destruct attach. Qed.

(** The method run to completion is its three parts run one after the
    other with nothing in between. *)
Lemma t_start_as_phases (snapshot : Completion (list TelemetryData))
    (attach : Completion unit) (w : Telemetry.W) :
  Telemetry.start snapshot attach w
  = (exec Telemetry.start_call;
     do existing <- await snapshot;
     exec Telemetry.start_seed existing;
     Telemetry.start_attach attach) w.
Proof.
  destruct snapshot as [existing|e]; [|done].
  unfold bind at 1. rewrite t_start_call_run. unfold bind at 1, await.
  unfold bind at 1. rewrite t_start_seed_run, t_start_attach_run.
  destruct attach as [[]|e].
  - rewrite t_start_ok. simpl. by rewrite <- !app_assoc.
  - rewrite t_start_attach_rejected. simpl. by rewrite <- !app_assoc.
Qed.

Lemma t_awaited_start_is_atomic (snapshot : Completion (list TelemetryData))
    (attach : Completion unit) (w : Telemetry.W) :
  Telemetry.arun
    [Telemetry.CallStart; Telemetry.SnapshotSettles 0 snapshot;
     Telemetry.ListenSettles 0 attach]
    (Telemetry.mkAsync w [])
  = Telemetry.mkAsync (Telemetry.step (Telemetry.Start snapshot attach) w) [].
Proof.
  unfold Telemetry.step. cbn [Telemetry.perform].
  destruct snapshot as [existing|e]; [destruct attach as [[]|e]|];
    rewrite ?t_start_ok, ?t_start_attach_rejected, ?t_start_rejected;
    repeat (progress (simpl;
                      rewrite ?t_start_call_run, ?t_start_seed_run, ?t_start_attach_run));
    by rewrite <- ?app_assoc.
Qed.

Lemma v_start_call_run (w : Video.W) :
  Video.start_call w
  = (Normal tt,
     mkWorld (this w) (listeners w) (next_id w)
       (trace w ++ [Invoked "get_latest_video_frame" (Video.key (this w))])).
Proof. reflexivity. Qed.

Lemma v_start_seed_run (f : option Video.VideoFrameForFrontend) (w : Video.W) :
  Video.start_seed f w
  = (Normal tt,
     mkWorld (Video.set_currentFrame f (this w)) (listeners w) (next_id w)
       (trace w ++ map (fun cb => Called cb f) (Video.subscribers (this w)))).
Proof. unfold Video.start_seed, bind, modify. simpl. by rewrite v_notify_run. Qed.

Lemma v_start_attach_run (attach : Completion unit) (w : Video.W) :
  Video.start_attach attach w
  = match attach with
    | Normal _ =>
        (Normal tt,
         mkWorld (Video.set_unlisten (Some (next_id w)) (this w))
           (listeners w ++ [next_id w]) (Datatypes.S (next_id w))
           (trace w ++ [Listened "video-frame-update" (next_id w)]))
    | Throw e => (Throw e, w)
    end.
Proof. by destruct attach. Qed.

Lemma v_start_as_phases (latest : Completion (option Video.VideoFrameForFrontend))
    (attach : Completion unit) (w : Video.W) :
  Video.start latest attach w
  = (exec Video.start_call;
     do f <- await latest;
     exec Video.start_seed f;
     Video.start_attach attach) w.
Proof.
  destruct latest as [f|e]; [|done].
  unfold bind at 1. rewrite v_start_call_run. unfold bind at 1, await.
  unfold bind at 1. rewrite v_start_seed_run, v_start_attach_run.
  destruct attach as [[]|e].
  - rewrite v_start_ok. simpl. by rewrite <- !app_assoc.
  - rewrite v_start_attach_rejected. simpl. by rewrite <- !app_assoc.
Qed.

Lemma v_awaited_start_is_atomic (latest : Completion (option Video.VideoFrameForFrontend))
    (attach : Completion unit) (w : Video.W) :
  Video.arun
    [Video.CallStart; Video.LatestSettles 0 latest; Video.ListenSettles 0 attach]
    (Video.mkAsync w [])
  = Video.mkAsync (Video.step (Video.Start latest attach) w) [].
Proof.
  unfold Video.step. cbn [Video.perform].
  destruct latest as [f|e]; [destruct attach as [[]|e]|];
    rewrite ?v_start_ok, ?v_start_attach_rejected, ?v_start_rejected;
    repeat (progress (simpl;
                      rewrite ?v_start_call_run, ?v_start_seed_run, ?v_start_attach_run));
    by rewrite <- ?app_assoc.
Qed.

(** ** One listener when every [start()] is awaited *)

Lemma t_step_keeps_unlisten (op : Telemetry.Op) (w : Telemetry.W) :
  match op with
  | Telemetry.Start _ _ | Telemetry.Stop => True
  | _ => unlisten (this (Telemetry.step op w)) = unlisten (this w)
  end.
Proof.
  unfold Telemetry.step. destruct op as [snap att| |cb|cb|snap|d]; try done.
  - cbn [Telemetry.perform].
    destruct snap as [d|e]; by rewrite ?t_refresh_ok, ?t_refresh_rejected.
  - cbn [Telemetry.perform]. unfold Telemetry.emit.
    apply (forEach_preserves
             (fun w' : Telemetry.W => unlisten (this w') = unlisten (this w)));
      [|done].
    intros _ w' Hw'. by rewrite t_on_update_run.
Qed.

Lemma v_step_keeps_unlisten (op : Video.Op) (w : Video.W) :
  match op with
  | Video.Start _ _ | Video.Stop => True
  | _ => Video.unlisten (this (Video.step op w)) = Video.unlisten (this w)
  end.
Proof.
  unfold Video.step. destruct op as [snap att| |cb|cb|snap|d]; try done.
  - cbn [Video.perform].
    destruct snap as [f|e]; by rewrite ?v_refresh_ok, ?v_refresh_rejected.
  - cbn [Video.perform]. unfold Video.emit.
    apply (forEach_preserves
             (fun w' : Video.W => Video.unlisten (this w') = Video.unlisten (this w)));
      [|done].
    intros _ w' Hw'. by rewrite v_on_frame_run.
Qed.

Lemma t_idle_pending (a : Telemetry.Async) :
  Telemetry.idle a = true -> Telemetry.pending a = [].
Proof. unfold Telemetry.idle. by destruct (Telemetry.pending a). Qed.

Lemma v_idle_pending (a : Video.Async) :
  Video.idle a = true -> Video.pending a = [].
Proof. unfold Video.idle. by destruct (Video.pending a). Qed.

Lemma t_astep_orderly (op : Telemetry.AOp) (a : Telemetry.Async) :
  Telemetry.awaited [op] a = true -> t_orderly a -> t_orderly (Telemetry.astep op a).
Proof.
  intros Hg [Ht Hp]. cbn [Telemetry.awaited] in Hg. rewrite andb_true_r in Hg.
  destruct a as [w ps]. cbn [Telemetry.world Telemetry.pending] in *.
  unfold t_orderly.
  destruct op as [|i snap|i att|op]; cbn [Telemetry.astep Telemetry.world Telemetry.pending].
  - apply andb_prop in Hg as [Hi Hu]. apply t_idle_pending in Hi. simpl in Hi.
    apply bool_decide_eq_true_1 in Hu. simpl in Hu. subst ps.
    rewrite t_start_call_run. split; [by eapply tidy_same|]. right. done.
  - destruct Hp as [->|[Hl Hu]]; [by split; [|left]|].
    destruct ps as [|x [|y ps]]; try done.
    destruct i as [|i]; [|by split; [|right]].
    destruct x; [|by split; [|right]].
    destruct snap as [existing|e]; simpl.
    + rewrite t_start_seed_run. split; [by eapply tidy_same|]. right. done.
    + split; [done|]. by left.
  - destruct Hp as [->|[Hl Hu]]; [by split; [|left]|].
    destruct ps as [|x [|y ps]]; try done.
    destruct i as [|i]; [|by split; [|right]].
    destruct x; [by split; [|right]|]. simpl.
    rewrite t_start_attach_run. destruct att as [[]|e]; simpl.
    + split; [by eapply tidy_attach|]. by left.
    + split; [done|]. by left.
  - pose proof (t_step_keeps_unlisten op w) as Hk.
    destruct op as [snap att| |cb|cb|snap|d].
    + apply andb_prop in Hg as [Hi Hu]. apply t_idle_pending in Hi. simpl in Hi.
      apply bool_decide_eq_true_1 in Hu. simpl in Hu. subst ps.
      split; [by apply t_step_tidy|]. by left.
    + apply t_idle_pending in Hg. simpl in Hg. subst ps.
      split; [by apply t_step_tidy|]. by left.
    + split; [by apply t_step_tidy|]. destruct Hp as [->|[Hl Hu]]; [by left|].
      right. by rewrite Hk.
    + split; [by apply t_step_tidy|]. destruct Hp as [->|[Hl Hu]]; [by left|].
      right. by rewrite Hk.
    + split; [by apply t_step_tidy|]. destruct Hp as [->|[Hl Hu]]; [by left|].
      right. by rewrite Hk.
    + split; [by apply t_step_tidy|]. destruct Hp as [->|[Hl Hu]]; [by left|].
      right. by rewrite Hk.
Qed.

Lemma t_arun_orderly (ops : list Telemetry.AOp) (a : Telemetry.Async) :
  Telemetry.awaited ops a = true -> t_orderly a -> t_orderly (Telemetry.arun ops a).
Proof.
  revert a. induction ops as [|op ops IH]; intros a Hg Ha; [done|].
  cbn [Telemetry.awaited Telemetry.arun] in *. apply andb_prop in Hg as [Hg1 Hg2].
  apply IH; [done|]. apply t_astep_orderly; [|done].
  cbn [Telemetry.awaited]. by rewrite Hg1.
Qed.

Lemma v_astep_orderly (op : Video.AOp) (a : Video.Async) :
  Video.awaited [op] a = true -> v_orderly a -> v_orderly (Video.astep op a).
Proof.
  intros Hg [Ht Hp]. cbn [Video.awaited] in Hg. rewrite andb_true_r in Hg.
  destruct a as [w ps]. cbn [Video.world Video.pending] in *.
  unfold v_orderly.
  destruct op as [|i snap|i att|op]; cbn [Video.astep Video.world Video.pending].
  - apply andb_prop in Hg as [Hi Hu]. apply v_idle_pending in Hi. simpl in Hi.
    apply bool_decide_eq_true_1 in Hu. simpl in Hu. subst ps.
    rewrite v_start_call_run. split; [by eapply tidy_same|]. right. done.
  - destruct Hp as [->|[Hl Hu]]; [by split; [|left]|].
    destruct ps as [|x [|y ps]]; try done.
    destruct i as [|i]; [|by split; [|right]].
    destruct x; [|by split; [|right]].
    destruct snap as [f|e]; simpl.
    + rewrite v_start_seed_run. split; [by eapply tidy_same|]. right. done.
    + split; [done|]. by left.
  - destruct Hp as [->|[Hl Hu]]; [by split; [|left]|].
    destruct ps as [|x [|y ps]]; try done.
    destruct i as [|i]; [|by split; [|right]].
    destruct x; [by split; [|right]|]. simpl.
    rewrite v_start_attach_run. destruct att as [[]|e]; simpl.
    + split; [by eapply tidy_attach|]. by left.
    + split; [done|]. by left.
  - pose proof (v_step_keeps_unlisten op w) as Hk.
    destruct op as [snap att| |cb|cb|snap|d].
    + apply andb_prop in Hg as [Hi Hu]. apply v_idle_pending in Hi. simpl in Hi.
      apply bool_decide_eq_true_1 in Hu. simpl in Hu. subst ps.
      split; [by apply v_step_tidy|]. by left.
    + apply v_idle_pending in Hg. simpl in Hg. subst ps.
      split; [by apply v_step_tidy|]. by left.
    + split; [by apply v_step_tidy|]. destruct Hp as [->|[Hl Hu]]; [by left|].
      right. by rewrite Hk.
    + split; [by apply v_step_tidy|]. destruct Hp as [->|[Hl Hu]]; [by left|].
      right. by rewrite Hk.
    + split; [by apply v_step_tidy|]. destruct Hp as [->|[Hl Hu]]; [by left|].
      right. by rewrite Hk.
    + split; [by apply v_step_tidy|]. destruct Hp as [->|[Hl Hu]]; [by left|].
      right. by rewrite Hk.
Qed.

Lemma v_arun_orderly (ops : list Video.AOp) (a : Video.Async) :
  Video.awaited ops a = true -> v_orderly a -> v_orderly (Video.arun ops a).
Proof.
  revert a. induction ops as [|op ops IH]; intros a Hg Ha; [done|].
  cbn [Video.awaited Video.arun] in *. apply andb_prop in Hg as [Hg1 Hg2].
  apply IH; [done|]. apply v_astep_orderly; [|done].
  cbn [Video.awaited]. by rewrite Hg1.
Qed.

(** Calls made while a [start()] is suspended escape the guard of
    [stop()]: [start(); stop(); start()] issued back to back, each [start()]
    made while no unlisten function is held, ends with two live listeners;
    and after [start(); stop()] the listener of the suspended [start()] still
    attaches. *)
Lemma t_unawaited_start_escapes_stop :
  let ok := Normal [] : Completion (list TelemetryData) in
  let a0 := Telemetry.afresh (Samples.altimeter 100) in
  let a1 := Telemetry.arun [Telemetry.CallStart; Telemetry.Sync Telemetry.Stop] a0 in
  let a2 := Telemetry.arun
              [Telemetry.CallStart; Telemetry.SnapshotSettles 0 ok;
               Telemetry.ListenSettles 0 (Normal tt); Telemetry.SnapshotSettles 0 ok;
               Telemetry.ListenSettles 0 (Normal tt)] a1 in
  let a3 := Telemetry.arun
              [Telemetry.SnapshotSettles 0 ok; Telemetry.ListenSettles 0 (Normal tt)] a1 in
  unlisten (this (Telemetry.world a1)) = None
  /\ listeners (Telemetry.world a2) = [0; 1]
  /\ listeners (Telemetry.world a3) = [0].
Proof. repeat split; reflexivity. Qed.



(** ** Listeners the store can no longer release *)

Section LeakFacts.
Context {S V : Type} (held : S -> option UnlistenFn) (oh : option UnlistenFn).

Lemma leaked_same (w w' : World S V) :
  listeners w' = listeners w -> next_id w' = next_id w ->
  held (this w') = held (this w) ->
  leaked held oh w -> leaked held oh w'.
Proof. unfold leaked. by intros -> -> ->. Qed.

Lemma leaked_attach (w w' : World S V) :
  listeners w' = listeners w ++ [next_id w] ->
  next_id w' = Datatypes.S (next_id w) ->
  held (this w') = Some (next_id w) ->
  leaked held oh w -> leaked held oh w'.
Proof.
  unfold leaked. intros -> -> -> [Hb Hh]. split.
  - apply Forall_app. split; [|apply Forall_singleton; lia].
    eapply Forall_impl; [exact Hb|]. simpl. lia.
  - intros h Hoh. destruct (Hh h Hoh) as [Hin _]. split.
    + apply elem_of_app. by left.
    + intros [= Heq]. rewrite Forall_forall in Hb. specialize (Hb _ Hin). lia.
Qed.

Lemma leaked_release (h' : UnlistenFn) (w w' : World S V) :
  held (this w) = Some h' ->
  listeners w' = filter (fun x => x ≠ h') (listeners w) ->
  next_id w' = next_id w ->
  held (this w') = None ->
  leaked held oh w -> leaked held oh w'.
Proof.
  unfold leaked. intros Hheld -> -> -> [Hb Hh]. split.
  - rewrite Forall_forall in *. intros x [_ Hx]%list_elem_of_filter. by apply Hb.
  - intros h Hoh. destruct (Hh h Hoh) as [Hin Hne]. split; [|done].
    apply list_elem_of_filter. split; [|done]. congruence.
Qed.

End LeakFacts.

Lemma t_step_leaked (oh : option UnlistenFn) (op : Telemetry.Op) (w : Telemetry.W) :
  leaked unlisten oh w -> leaked unlisten oh (Telemetry.step op w).
Proof.
  intros Hw. unfold Telemetry.step.
  destruct op as [snap att| |cb|cb|snap|d]; cbn [Telemetry.perform].
  - destruct snap as [existing|e]; [destruct att as [[]|e]|].
    + rewrite t_start_ok. by eapply (leaked_attach unlisten oh w).
    + rewrite t_start_attach_rejected. by eapply leaked_same.
    + rewrite t_start_rejected. by eapply leaked_same.
  - rewrite t_stop_run. simpl. destruct (unlisten (this w)) as [h|] eqn:Hh; [|done].
    by eapply (leaked_release unlisten oh h w).
  - by eapply leaked_same.
  - by eapply leaked_same.
  - destruct snap as [existing|e].
    + rewrite t_refresh_ok. by eapply leaked_same.
    + rewrite t_refresh_rejected. by eapply leaked_same.
  - unfold Telemetry.emit. apply (forEach_preserves (leaked unlisten oh)); [|done].
    intros _ w' Hw'. rewrite t_on_update_run. by eapply leaked_same.
Qed.

Lemma t_astep_leaked (oh : option UnlistenFn) (op : Telemetry.AOp) (a : Telemetry.Async) :
  leaked unlisten oh (Telemetry.world a) ->
  leaked unlisten oh (Telemetry.world (Telemetry.astep op a)).
Proof.
  intros Hw. destruct op as [|i snap|i att|op]; cbn [Telemetry.astep].
  - cbn [Telemetry.world]. rewrite t_start_call_run. by eapply leaked_same.
  - destruct (Telemetry.pending a !! i) as [[]|]; try done.
    destruct snap as [existing|e]; cbn [Telemetry.world]; [|done].
    rewrite t_start_seed_run. by eapply leaked_same.
  - destruct (Telemetry.pending a !! i) as [[]|]; try done.
    cbn [Telemetry.world]. rewrite t_start_attach_run.
    destruct att as [[]|e]; [|done].
    by eapply (leaked_attach unlisten oh (Telemetry.world a)).
  - cbn [Telemetry.world]. by apply t_step_leaked.
Qed.

Lemma t_arun_leaked (oh : option UnlistenFn) (ops : list Telemetry.AOp)
    (a : Telemetry.Async) :
  leaked unlisten oh (Telemetry.world a) ->
  leaked unlisten oh (Telemetry.world (Telemetry.arun ops a)).
Proof.
  revert a. induction ops as [|op ops IH]; intros a Ha; [done|].
  cbn [Telemetry.arun]. by apply IH, t_astep_leaked.
Qed.

Lemma v_step_leaked (oh : option UnlistenFn) (op : Video.Op) (w : Video.W) :
  leaked Video.unlisten oh w -> leaked Video.unlisten oh (Video.step op w).
Proof.
  intros Hw. unfold Video.step.
  destruct op as [snap att| |cb|cb|snap|d]; cbn [Video.perform].
  - destruct snap as [f|e]; [destruct att as [[]|e]|].
    + rewrite v_start_ok. by eapply (leaked_attach Video.unlisten oh w).
    + rewrite v_start_attach_rejected. by eapply leaked_same.
    + rewrite v_start_rejected. by eapply leaked_same.
  - rewrite v_stop_run. simpl.
    destruct (Video.unlisten (this w)) as [h|] eqn:Hh; [|done].
    by eapply (leaked_release Video.unlisten oh h w).
  - by eapply leaked_same.
  - by eapply leaked_same.
  - destruct snap as [f|e].
    + rewrite v_refresh_ok. by eapply leaked_same.
    + rewrite v_refresh_rejected. by eapply leaked_same.
  - unfold Video.emit. apply (forEach_preserves (leaked Video.unlisten oh)); [|done].
    intros _ w' Hw'. rewrite v_on_frame_run. by eapply leaked_same.
Qed.

Lemma v_astep_leaked (oh : option UnlistenFn) (op : Video.AOp) (a : Video.Async) :
  leaked Video.unlisten oh (Video.world a) ->
  leaked Video.unlisten oh (Video.world (Video.astep op a)).
Proof.
  intros Hw. destruct op as [|i snap|i att|op]; cbn [Video.astep].
  - cbn [Video.world]. rewrite v_start_call_run. by eapply leaked_same.
  - destruct (Video.pending a !! i) as [[]|]; try done.
    destruct snap as [f|e]; cbn [Video.world]; [|done].
    rewrite v_start_seed_run. by eapply leaked_same.
  - destruct (Video.pending a !! i) as [[]|]; try done.
    cbn [Video.world]. rewrite v_start_attach_run.
    destruct att as [[]|e]; [|done].
    by eapply (leaked_attach Video.unlisten oh (Video.world a)).
  - cbn [Video.world]. by apply v_step_leaked.
Qed.

Lemma v_arun_leaked (oh : option UnlistenFn) (ops : list Video.AOp) (a : Video.Async) :
  leaked Video.unlisten oh (Video.world a) ->
  leaked Video.unlisten oh (Video.world (Video.arun ops a)).
Proof.
  revert a. induction ops as [|op ops IH]; intros a Ha; [done|].
  cbn [Video.arun]. by apply IH, v_astep_leaked.
Qed.

(** X8. Whatever program drives a store, its live listeners are exactly
    the listeners its successful [start()] calls attached (one each,
    numbered in order) minus those whose unlisten function a [stop()] has
    called.  And [stop()] only ever calls the function the store holds: a
    live listener that is not the held one (its unlisten function was
    overwritten by a later [start()]) stays live through everything that
    follows, calls made while a [start()] is suspended included.  Both
    stores. *)
Theorem live_listeners_are_attached_minus_released :
  (forall (k : string) (n : option Z) (s : TelemetryStore) (ops : list Telemetry.Op),
     Telemetry.constructor k n = Normal s ->
     let w := Telemetry.run ops (Telemetry.fresh s) in
     listeners w
     = filter (fun h => h ∉ unlistened (trace w))
         (seq 0 (length (filter t_attaches ops))))
  /\
  (forall (k : string) (s : Video.VideoStore) (ops : list Video.Op),
     Video.constructor k = Normal s ->
     let w := Video.run ops (Video.fresh s) in
     listeners w
     = filter (fun h => h ∉ unlistened (trace w))
         (seq 0 (length (filter v_attaches ops))))
  /\
  (forall (k : string) (n : option Z) (s : TelemetryStore)
          (ops ops' : list Telemetry.AOp) (h : UnlistenFn),
     Telemetry.constructor k n = Normal s ->
     let a := Telemetry.arun ops (Telemetry.afresh s) in
     h ∈ listeners (Telemetry.world a) ->
     unlisten (this (Telemetry.world a)) ≠ Some h ->
     h ∈ listeners (Telemetry.world (Telemetry.arun ops' a)))
  /\
  (forall (k : string) (s : Video.VideoStore)
          (ops ops' : list Video.AOp) (h : UnlistenFn),
     Video.constructor k = Normal s ->
     let a := Video.arun ops (Video.afresh s) in
     h ∈ listeners (Video.world a) ->
     Video.unlisten (this (Video.world a)) ≠ Some h ->
     h ∈ listeners (Video.world (Video.arun ops' a))).
Proof.
  split; [|split; [|split]].
  - intros k n s ops [= <-] w.
    pose proof (t_run_ledger ops (Telemetry.fresh (mkStore k [] None [] (default 100%Z n) None)))
      as H.
    unfold ledger in H. fold w in H. rewrite H.
    + subst w. by rewrite t_run_next_id.
    + by apply t_fresh_once.
    + done.
  - intros k s ops [= <-] w.
    pose proof (v_run_ledger ops (Video.fresh (Video.mkStore k None [] None))) as H.
    unfold ledger in H. fold w in H. rewrite H.
    + subst w. by rewrite v_run_next_id.
    + by apply v_fresh_once.
    + done.
  - intros k n s ops ops' h [= <-] a Hin Hne.
    assert (leaked unlisten None (Telemetry.world a)) as [Hb _].
    { apply t_arun_leaked. split; [by apply Forall_nil|done]. }
    apply (t_arun_leaked (Some h) ops' a); [|done].
    split; [done|]. by intros ? [= <-].
  - intros k s ops ops' h [= <-] a Hin Hne.
    assert (leaked Video.unlisten None (Video.world a)) as [Hb _].
    { apply v_arun_leaked. split; [by apply Forall_nil|done]. }
    apply (v_arun_leaked (Some h) ops' a); [|done].
    split; [done|]. by intros ? [= <-].
Qed.

(** Two awaited starts, then stops: listener 0 is no longer held and
    stays; the ledger of the same program. *)
Lemma scenario_leaked_listener :
  let again := Telemetry.Start (Normal []) (Normal tt) in
  let vagain := Video.Start (Normal None) (Normal tt) in
  let w := Telemetry.run [again; again; Telemetry.Stop; Telemetry.Stop]
             (Telemetry.fresh (Samples.altimeter 5)) in
  let v := Video.run [vagain; vagain; Video.Stop] (Video.fresh Samples.cameraA) in
  let a := Telemetry.arun [Telemetry.Sync again; Telemetry.Sync again]
             (Telemetry.afresh (Samples.altimeter 5)) in
  let b := Video.arun [Video.Sync vagain; Video.Sync vagain]
             (Video.afresh Samples.cameraA) in
  (listeners w = filter (fun h => h ∉ unlistened (trace w)) (seq 0 2)
   /\ listeners v = filter (fun h => h ∉ unlistened (trace v)) (seq 0 2))
  /\ 0 ∈ listeners (Telemetry.world
                      (Telemetry.arun
                         [Telemetry.Sync Telemetry.Stop; Telemetry.Sync Telemetry.Stop] a))
  /\ 0 ∈ listeners (Video.world (Video.arun [Video.Sync Video.Stop] b)).
Proof.
  intros again vagain w v a b. split; [split|split].
  - apply (proj1 live_listeners_are_attached_minus_released
             "altimeter" (Some 5%Z) (Samples.altimeter 5)
             [again; again; Telemetry.Stop; Telemetry.Stop]).
    reflexivity.
  - apply (proj1 (proj2 live_listeners_are_attached_minus_released)
             "A" Samples.cameraA [vagain; vagain; Video.Stop]).
    reflexivity.
  - apply (proj1 (proj2 (proj2 live_listeners_are_attached_minus_released))
             "altimeter" (Some 5%Z) (Samples.altimeter 5)
             [Telemetry.Sync again; Telemetry.Sync again]
             [Telemetry.Sync Telemetry.Stop; Telemetry.Sync Telemetry.Stop] 0).
    + reflexivity.
    + apply list_elem_of_here.
    + discriminate.
  - apply (proj2 (proj2 (proj2 live_listeners_are_attached_minus_released))
             "A" Samples.cameraA [Video.Sync vagain; Video.Sync vagain]
             [Video.Sync Video.Stop] 0).
    + reflexivity.
    + apply list_elem_of_here.
    + discriminate.
Defined.

(** ** After [stop()] *)

(** X9. [stop()] keeps the buffer (the current frame), the current record
    and the subscribers.  In a program in which every [start()] is awaited,
    after a [stop()] the store has no live listener and none about to
    attach, so an event emitted on the channel changes nothing and calls
    nobody.  The listener closure itself does not look at whether the store
    was stopped: when it is still invoked after [stop()] (a delivery already
    under way), it appends the record (replaces the frame) and calls every
    subscriber as before.  Both stores. *)
Theorem stop_detaches_listener_closure_has_no_guard :
  (forall (k : string) (n : option Z) (s : TelemetryStore)
          (ops : list Telemetry.AOp) (d : TelemetryData),
     Telemetry.constructor k n = Normal s ->
     Telemetry.awaited ops (Telemetry.afresh s) = true ->
     let a := Telemetry.arun ops (Telemetry.afresh s) in
     Telemetry.idle a = true ->
     let a' := Telemetry.astep (Telemetry.Sync Telemetry.Stop) a in
     (listeners (Telemetry.world a') = [] /\ Telemetry.pending a' = [])
     /\ Telemetry.astep (Telemetry.Sync (Telemetry.Emit d)) a' = a'
     /\ (data (this (Telemetry.world a')), currentData (this (Telemetry.world a')),
         subscribers (this (Telemetry.world a')))
        = (data (this (Telemetry.world a)), currentData (this (Telemetry.world a)),
           subscribers (this (Telemetry.world a))))
  /\
  (forall (k : string) (s : Video.VideoStore) (ops : list Video.AOp)
          (ev : Video.VideoEvent),
     Video.constructor k = Normal s ->
     Video.awaited ops (Video.afresh s) = true ->
     let a := Video.arun ops (Video.afresh s) in
     Video.idle a = true ->
     let a' := Video.astep (Video.Sync Video.Stop) a in
     (listeners (Video.world a') = [] /\ Video.pending a' = [])
     /\ Video.astep (Video.Sync (Video.Emit ev)) a' = a'
     /\ (Video.currentFrame (this (Video.world a')),
         Video.subscribers (this (Video.world a')))
        = (Video.currentFrame (this (Video.world a)),
           Video.subscribers (this (Video.world a))))
  /\
  (forall (w : Telemetry.W) (d : TelemetryData),
     let w1 := snd (Telemetry.stop w) in
     let w2 := snd (on_update d w1) in
     data (this w2) = slice (- maxPoints (this w)) (data (this w) ++ [d])
     /\ currentData (this w2) = Some d
     /\ calls (trace w2)
        = calls (trace w1) ++ map (fun cb => (cb, data (this w2))) (subscribers (this w)))
  /\
  (forall (w : Video.W) (frame : Video.VideoFrameForFrontend),
     let w1 := snd (Video.stop w) in
     let w2 := snd (Video.on_frame frame w1) in
     Video.currentFrame (this w2) = Some frame
     /\ calls (trace w2)
        = calls (trace w1) ++ map (fun cb => (cb, Some frame)) (Video.subscribers (this w))).
Proof.
  split; [|split; [|split]].
  - intros k n s ops d [= <-] Hg a Hi a'.
    assert (t_orderly a) as [Ht Hp].
    { apply t_arun_orderly; [done|]. split; [by apply t_fresh_tidy|by left]. }
    pose proof (t_step_tidy Telemetry.Stop (Telemetry.world a) I Ht) as Hs.
    assert (Telemetry.world a'
            = snd (Telemetry.stop (Telemetry.world a))) as Hw' by done.
    rewrite t_stop_run in Hw'.
    assert (listeners (Telemetry.world a') = []) as Hl.
    { subst a'. cbn [Telemetry.astep Telemetry.world]. unfold tidy in Hs. rewrite Hs.
      unfold Telemetry.step. cbn [Telemetry.perform]. rewrite t_stop_run. simpl.
      destruct (unlisten (this (Telemetry.world a))) eqn:Hh; simpl; by rewrite ?Hh. }
    split; [|split].
    + split; [done|]. subst a'. cbn [Telemetry.astep Telemetry.pending].
      by apply t_idle_pending.
    + subst a'. cbn [Telemetry.astep Telemetry.world Telemetry.pending] in *. f_equal.
      by apply t_emit_no_listener.
    + rewrite Hw'. simpl. by destruct (unlisten (this (Telemetry.world a))).
  - intros k s ops ev [= <-] Hg a Hi a'.
    assert (v_orderly a) as [Ht Hp].
    { apply v_arun_orderly; [done|]. split; [by apply v_fresh_tidy|by left]. }
    pose proof (v_step_tidy Video.Stop (Video.world a) I Ht) as Hs.
    assert (Video.world a' = snd (Video.stop (Video.world a))) as Hw' by done.
    rewrite v_stop_run in Hw'.
    assert (listeners (Video.world a') = []) as Hl.
    { subst a'. cbn [Video.astep Video.world]. unfold tidy in Hs. rewrite Hs.
      unfold Video.step. cbn [Video.perform]. rewrite v_stop_run. simpl.
      destruct (Video.unlisten (this (Video.world a))) eqn:Hh; simpl; by rewrite ?Hh. }
    split; [|split].
    + split; [done|]. subst a'. cbn [Video.astep Video.pending].
      by apply v_idle_pending.
    + subst a'. cbn [Video.astep Video.world Video.pending] in *. f_equal.
      by apply v_emit_no_listener.
    + rewrite Hw'. simpl. by destruct (Video.unlisten (this (Video.world a))).
  - intros w d w1 w2. subst w2 w1. rewrite t_on_update_run, t_stop_run. simpl.
    destruct (unlisten (this w)); simpl; (split; [done|]); (split; [done|]);
      by rewrite calls_app, calls_called.
  - intros w frame w1 w2. subst w2 w1. rewrite v_on_frame_run, v_stop_run. simpl.
    destruct (Video.unlisten (this w)); simpl; (split; [done|]);
      by rewrite calls_app, calls_called.
Qed.

Lemma scenario_event_after_stop :
  let ops := [Telemetry.Sync (Telemetry.Subscribe 7); Telemetry.CallStart;
              Telemetry.SnapshotSettles 0 (Normal [Samples.reading 0 1]);
              Telemetry.ListenSettles 0 (Normal tt)] in
  let vops := [Video.Sync (Video.Subscribe 7);
               Video.Sync (Video.Start (Normal None) (Normal tt))] in
  let a := Telemetry.astep (Telemetry.Sync Telemetry.Stop)
             (Telemetry.arun ops (Telemetry.afresh (Samples.altimeter 5))) in
  let v := Video.astep (Video.Sync Video.Stop)
             (Video.arun vops (Video.afresh Samples.cameraA)) in
  Telemetry.astep (Telemetry.Sync (Telemetry.Emit (Samples.reading 1 2))) a = a
  /\ Video.astep (Video.Sync (Video.Emit (Video.mkEvent "A" (Samples.frame 1 "QQ==")))) v
     = v.
Proof.
  intros ops vops a v. split.
  - apply (proj1 stop_detaches_listener_closure_has_no_guard
             "altimeter" (Some 5%Z) (Samples.altimeter 5) ops (Samples.reading 1 2));
      reflexivity.
  - apply (proj1 (proj2 stop_detaches_listener_closure_has_no_guard)
             "A" Samples.cameraA vops (Video.mkEvent "A" (Samples.frame 1 "QQ==")));
      reflexivity.
Defined.

(** Every prefix of a program in which every [start()] is awaited is such a
    program, so what holds after all of them holds at every moment. *)
Lemma t_awaited_prefix (ops1 ops2 : list Telemetry.AOp) (a : Telemetry.Async) :
  Telemetry.awaited (ops1 ++ ops2) a = true -> Telemetry.awaited ops1 a = true.
Proof.
  revert a. induction ops1 as [|op ops1 IH]; intros a; [done|].
  cbn [app Telemetry.awaited]. intros [H1 H2]%andb_prop. rewrite H1. simpl.
  by apply IH.
Qed.

Lemma v_awaited_prefix (ops1 ops2 : list Video.AOp) (a : Video.Async) :
  Video.awaited (ops1 ++ ops2) a = true -> Video.awaited ops1 a = true.
Proof.
  revert a. induction ops1 as [|op ops1 IH]; intros a; [done|].
  cbn [app Video.awaited]. intros [H1 H2]%andb_prop. rewrite H1. simpl.
  by apply IH.
Qed.
